(** * docker-manager: the container reconfiguration engine and the
      system-info aggregator of [backend/app/services/docker_service.py]

    A shallow embedding of [DockerService.update_container],
    [DockerService.attach_volume_to_container] and
    [DockerService.get_system_info].

    - Python [str] is [string]; [list] is [list]; a [dict] used as a map
      is a [gmap]; an optional key of a JSON object is an [option] field.
    - The Docker client is an oracle ([Runtime]) whose answers may depend
      on every call issued before; each function runs in a small monad
      that records the calls it issues together with their outcome, and
      keeps that record when an exception escapes.
    - Python exceptions are values of [exn]; [try]/[except] is [try_except].
    - Python floats are modelled by exact rationals ([Qc]). *)

From Stdlib Require Import Ascii String QArith Qcanon.
From stdpp Require Import base strings gmap list numbers.

Local Open Scope string_scope.
Local Open Scope list_scope.
Local Open Scope stdpp_scope.

(** ** Python string primitives *)

Module Py.

(** [sep in s] for a one-character [sep]. *)
Fixpoint contains (sep : ascii) (s : string) : bool :=
  match s with
  | EmptyString => false
  | String c rest => if Ascii.eqb c sep then true else contains sep rest
  end.

(** [s.split(sep)] for a one-character [sep]: always at least one
    segment, empty segments are kept. *)
Fixpoint split (sep : ascii) (s : string) : list string :=
  match s with
  | EmptyString => [EmptyString]
  | String c rest =>
      if Ascii.eqb c sep then EmptyString :: split sep rest
      else match split sep rest with
           | [] => [String c EmptyString]
           | w :: ws => String c w :: ws
           end
  end.

(** [c.lower()] on the ASCII range. *)
Definition lower_ascii (c : ascii) : ascii :=
  let n := nat_of_ascii c in
  if (65 <=? n)%nat && (n <=? 90)%nat then ascii_of_nat (n + 32) else c.

(** [s.lower()]; container states are ASCII words. *)
Fixpoint lower (s : string) : string :=
  match s with
  | EmptyString => EmptyString
  | String c rest => String (lower_ascii c) (lower rest)
  end.

End Py.

(** The one separator of a bind string. *)
Definition colon : ascii := ":"%char.

(** ** Exceptions *)

(** [NotFound] is a subclass of [APIError] in the Docker client; both are
    subclasses of [Exception], as are [KeyError] and [ValueError].
    [PyException] is a plain [Exception(msg)] raised by the service
    itself; [OtherError] is any other [Exception] the client may throw
    (a connection error, say).  The string of [NotFound] and [APIError]
    is [str(e)]. *)
Inductive exn : Type :=
  | NotFound (msg : string)
  | APIError (msg : string)
  | KeyError (key : string)
  | ValueError (msg : string)
  | PyException (msg : string)
  | OtherError (msg : string).

(** ** Data model: what [container.attrs] holds *)

(** One entry of [attrs['Mounts']].  The code reads ['Type'], ['Source']
    and ['Destination'] by index (a missing key raises [KeyError]),
    tests ['Mode'] with [in] and reads ['Source'] with [.get]. *)
Record Mount : Type := {
  m_Type : option string;
  m_Source : option string;
  m_Destination : option string;
  m_Mode : option string
}.

(** [PortBindings]: container port to host bindings. *)
Definition Ports : Type := list (string * list string).

(** The parts of [attrs] the service reads.  [Config_Image] and
    [Networks] are read by index on a container the runtime returned;
    the others are read with [.get] and a default, [None] standing for
    a missing key (a JSON [null] under a key is not modelled). *)
Record Attrs : Type := {
  Config_Image : string;
  Config_Env : option (list string);
  Mounts : option (list Mount);
  Networks : list string;
  HostConfig_PortBindings : option Ports;
  HostConfig_Binds : option (list string)
}.

(** A container object of the client. *)
Record Container : Type := {
  c_name : string;
  c_status : string;
  c_attrs : Attrs
}.

(** [ContainerUpdate.dict(exclude_none=True)]: every key is optional. *)
Record ContainerUpdate : Type := {
  u_image : option string;
  u_environment : option (list string);
  u_volumes : option (list string);
  u_networks : option (list string);
  u_ports : option Ports
}.

(** [updates.get(key, dflt)] and [d.get(key, dflt)]. *)
Definition get_or {A : Type} (o : option A) (dflt : A) : A :=
  match o with Some v => v | None => dflt end.

(** [d[key]]. *)
Definition index {A : Type} (key : string) (o : option A) : exn + A :=
  match o with Some v => inr v | None => inl (KeyError key) end.

(** ** Arguments of the creating calls *)

(** Keyword arguments of [client.containers.run] in [update_container];
    [ra_volumes] is the dict [{dest: {}}], of which only the keys carry
    information. *)
Record RunArgs : Type := {
  ra_image : string;
  ra_name : string;
  ra_environment : list string;
  ra_volumes : option (gmap string unit);
  ra_ports : option Ports;
  ra_detach : bool;
  ra_network : option string
}.

(** Keyword arguments of [client.containers.create] in
    [attach_volume_to_container]; [ca_binds] is the [binds] given to
    [create_host_config]. *)
Record CreateArgs : Type := {
  ca_image : string;
  ca_name : string;
  ca_environment : list string;
  ca_ports : Ports;
  ca_volumes : gmap string unit;
  ca_binds : list string
}.

(** ** Mount translation (the loops of [update_container], lines 204-221) *)

(** [f"{mount['Source']}:{mount['Destination']}"], followed by
    [f":{mount['Mode']}"] when the key ['Mode'] is present. *)
Definition bind_str (source dest : string) (mode : option string) : string :=
  let s := source +:+ ":" +:+ dest in
  match mode with
  | Some md => s +:+ ":" +:+ md
  | None => s
  end.

(** [source, dest = vol.split(':')[:2]]. *)
Definition split_bind (vol : string) : exn + (string * string) :=
  match take 2 (Py.split colon vol) with
  | [source; dest] => inr (source, dest)
  | _ => inl (ValueError "not enough values to unpack")
  end.

(** The loop over [updates['volumes']]: an entry without [':'] is
    skipped. *)
Fixpoint volumes_of_updates (vols : list string)
    (volumes : gmap string unit) (binds : list string)
    : exn + (gmap string unit * list string) :=
  match vols with
  | [] => inr (volumes, binds)
  | vol :: rest =>
      if Py.contains colon vol then
        match split_bind vol with
        | inr (_, dest) =>
            volumes_of_updates rest (<[dest := tt]> volumes) (binds ++ [vol])
        | inl e => inl e
        end
      else volumes_of_updates rest volumes binds
  end.

(** The loop over [attrs.get('Mounts', [])]: only mounts of type
    ['bind'] are kept. *)
Fixpoint volumes_of_mounts (mounts : list Mount)
    (volumes : gmap string unit) (binds : list string)
    : exn + (gmap string unit * list string) :=
  match mounts with
  | [] => inr (volumes, binds)
  | mount :: rest =>
      match index "Type" (m_Type mount) with
      | inl e => inl e
      | inr ty =>
          if String.eqb ty "bind" then
            match index "Source" (m_Source mount) with
            | inl e => inl e
            | inr source =>
                match index "Destination" (m_Destination mount) with
                | inl e => inl e
                | inr dest =>
                    volumes_of_mounts rest (<[dest := tt]> volumes)
                      (binds ++ [bind_str source dest (m_Mode mount)])
                end
            end
          else volumes_of_mounts rest volumes binds
      end
  end.

(** [x if x else None] on a dict or a list. *)
Definition dict_or_None (m : gmap string unit) : option (gmap string unit) :=
  if bool_decide (m = ∅) then None else Some m.

Definition ports_or_None (p : Ports) : option Ports :=
  match p with [] => None | _ => Some p end.

(** ** The runtime and the calls issued to it *)

(** The calls of the Docker client that the two recreating functions
    issue.  A container or network object is named by a string: the
    container's name for the one fetched, the handle the runtime gave
    for a created container or a fetched network. *)
Inductive Call : Type :=
  | ContainersGet (container_id : string)
  | ContainerStop (container : string)
  | ContainerRemove (container : string)
  | ContainersRun (args : RunArgs)
  | ContainersCreate (args : CreateArgs)
  | ContainerStart (container : string)
  | NetworksGet (network : string)
  | NetworkConnect (net : string) (container : string).

(** A call together with the exception it raised, if any. *)
Record Event : Type := {
  ev_call : Call;
  ev_error : option exn
}.

Definition Trace : Type := list Event.

(** The runtime decides every call from the calls made so far. *)
Record Runtime : Type := {
  rt_containers_get : Trace -> string -> exn + Container;
  rt_stop : Trace -> Container -> exn + unit;
  rt_remove : Trace -> Container -> exn + unit;
  rt_run : Trace -> RunArgs -> exn + string;
  rt_create : Trace -> CreateArgs -> exn + string;
  rt_start : Trace -> string -> exn + unit;
  rt_networks_get : Trace -> string -> exn + string;
  rt_connect : Trace -> string -> string -> exn + unit
}.

(** Computations that talk to the runtime: the trace is threaded and
    survives an exception. *)
Definition M (A : Type) : Type := Runtime -> Trace -> Trace * (exn + A).

#[global] Instance M_ret : MRet M := fun A x _ tr => (tr, inr x).

#[global] Instance M_bind : MBind M := fun A B f m rt tr =>
  match m rt tr with
  | (tr', inr x) => f x rt tr'
  | (tr', inl e) => (tr', inl e)
  end.

Definition raise {A : Type} (e : exn) : M A := fun _ tr => (tr, inl e).

(** A pure step that may raise. *)
Definition lift {A : Type} (r : exn + A) : M A := fun _ tr => (tr, r).

(** [try: body except ...: handler]; [handler e = None] when no clause
    matches [e], which then propagates. *)
Definition try_except {A : Type} (body : M A) (handler : exn -> option (M A))
    : M A := fun rt tr =>
  match body rt tr with
  | (tr', inl e) =>
      match handler e with
      | Some h => h rt tr'
      | None => (tr', inl e)
      end
  | r => r
  end.

Definition error_of {A : Type} (r : exn + A) : option exn :=
  match r with inl e => Some e | inr _ => None end.

(** Issue one call: ask the runtime, log the call and its outcome. *)
Definition call {A : Type} (c : Call) (answer : Runtime -> Trace -> exn + A)
    : M A := fun rt tr =>
  let r := answer rt tr in
  (tr ++ [{| ev_call := c; ev_error := error_of r |}], r).

Definition containers_get (container_id : string) : M Container :=
  call (ContainersGet container_id)
       (fun rt tr => rt_containers_get rt tr container_id).

Definition container_stop (c : Container) : M unit :=
  call (ContainerStop (c_name c)) (fun rt tr => rt_stop rt tr c).

Definition container_remove (c : Container) : M unit :=
  call (ContainerRemove (c_name c)) (fun rt tr => rt_remove rt tr c).

(** [client.containers.run(..., detach=True)]: creates the container
    and starts it. *)
Definition containers_run (args : RunArgs) : M string :=
  call (ContainersRun args) (fun rt tr => rt_run rt tr args).

Definition containers_create (args : CreateArgs) : M string :=
  call (ContainersCreate args) (fun rt tr => rt_create rt tr args).

Definition container_start (c : string) : M unit :=
  call (ContainerStart c) (fun rt tr => rt_start rt tr c).

Definition networks_get (network : string) : M string :=
  call (NetworksGet network) (fun rt tr => rt_networks_get rt tr network).

Definition network_connect (net container : string) : M unit :=
  call (NetworkConnect net container)
       (fun rt tr => rt_connect rt tr net container).

(** The success payload, a [Dict[str, str]]. *)
Definition Payload : Type := list (string * string).

(** Run a computation from the empty trace. *)
Definition run {A : Type} (m : M A) (rt : Runtime) : Trace * (exn + A) :=
  m rt [].

(** ** [DockerService.update_container] *)

(** Lines 204-221: [volumes] and [binds]. *)
Definition handle_volumes (attrs : Attrs) (updates : ContainerUpdate)
    : exn + (gmap string unit * list string) :=
  match u_volumes updates with
  | Some vols => volumes_of_updates vols ∅ []
  | None => volumes_of_mounts (get_or (Mounts attrs) []) ∅ []
  end.

(** Lines 244-250: the loop over [networks[1:]]; [except Exception: pass]
    swallows whatever [networks.get] or [net.connect] raised. *)
Fixpoint connect_networks (networks : list string) (new_container : string)
    : M unit :=
  match networks with
  | [] => mret tt
  | network :: rest =>
      try_except
        (net ← networks_get network; network_connect net new_container)
        (fun _ => Some (mret tt));;
      connect_networks rest new_container
  end.

(** The two [except] clauses of [update_container]; [NotFound] is tried
    first. *)
Definition update_handlers (container_id : string) (e : exn)
    : option (M Payload) :=
  match e with
  | NotFound _ =>
      Some (raise (PyException ("Container " +:+ container_id +:+ " not found")))
  | APIError msg =>
      Some (raise (PyException ("Failed to update container: " +:+ msg)))
  | _ => None
  end.

(** The [RunArgs] built from the fetched container and the request
    (lines 201-227 and 234-242); [binds] is computed and not passed on. *)
Definition run_args (old_container : Container) (updates : ContainerUpdate)
    (volumes : gmap string unit) : RunArgs :=
  let attrs := c_attrs old_container in
  let image := get_or (u_image updates) (Config_Image attrs) in
  let environment :=
    get_or (u_environment updates) (get_or (Config_Env attrs) []) in
  let networks := get_or (u_networks updates) (Networks attrs) in
  let ports :=
    get_or (u_ports updates) (get_or (HostConfig_PortBindings attrs) []) in
  {| ra_image := image;
     ra_name := c_name old_container;
     ra_environment := environment;
     ra_volumes := dict_or_None volumes;
     ra_ports := ports_or_None ports;
     ra_detach := true;
     ra_network := head networks |}.

Definition update_container (container_id : string)
    (updates : ContainerUpdate) : M Payload :=
  try_except
    (old_container ← containers_get container_id;
     let attrs := c_attrs old_container in
     vb ← lift (handle_volumes attrs updates);
     let networks := get_or (u_networks updates) (Networks attrs) in
     container_stop old_container;;
     container_remove old_container;;
     new_container ← containers_run (run_args old_container updates vb.1);
     connect_networks (drop 1 networks) new_container;;
     mret [("status", "success");
           ("message",
            "Container " +:+ container_id +:+ " updated and recreated")])
    (update_handlers container_id).

(** ** [DockerService.attach_volume_to_container] *)

(** Lines 586-588: the check against the mounts already present. *)
Fixpoint check_not_mounted (mounts : list Mount) (volume_name : string)
    : exn + unit :=
  match mounts with
  | [] => inr tt
  | mount :: rest =>
      if bool_decide (m_Source mount = Some volume_name) then
        inl (PyException ("Volume " +:+ volume_name
                          +:+ " is already attached to this container"))
      else check_not_mounted rest volume_name
  end.

Definition attach_handlers (e : exn) : option (M Payload) :=
  match e with
  | NotFound _ => Some (raise (PyException "Container or volume not found"))
  | APIError msg =>
      Some (raise (PyException ("Failed to attach volume: " +:+ msg)))
  | _ => None
  end.

Definition create_args (container : Container)
    (volume_name mount_point mode : string) : CreateArgs :=
  let attrs := c_attrs container in
  {| ca_image := Config_Image attrs;
     ca_name := c_name container;
     ca_environment := get_or (Config_Env attrs) [];
     ca_ports := get_or (HostConfig_PortBindings attrs) [];
     ca_volumes := {[ mount_point := tt ]};
     ca_binds := get_or (HostConfig_Binds attrs) []
                 ++ [volume_name +:+ ":" +:+ mount_point +:+ ":" +:+ mode] |}.

Definition attach_volume_to_container
    (container_id volume_name mount_point mode : string) : M Payload :=
  try_except
    (container ← containers_get container_id;
     let mounts := get_or (Mounts (c_attrs container)) [] in
     lift (check_not_mounted mounts volume_name);;
     let was_running := String.eqb (c_status container) "running" in
     (if was_running then container_stop container else mret tt);;
     container_remove container;;
     new_container ←
       containers_create (create_args container volume_name mount_point mode);
     (if was_running then container_start new_container else mret tt);;
     mret [("status", "success");
           ("message", "Volume " +:+ volume_name +:+ " attached to container")])
    attach_handlers.

(** ** [DockerService.get_system_info] *)

(** The leaves of [container.stats(stream=False)] that the loop reads,
    each [None] when the key (or a dict on the way to it) is missing:
    - [cpu_total_usage]: [stats['cpu_stats']['cpu_usage']['total_usage']]
    - [precpu_total_usage]: the same under ['precpu_stats']
    - [cpu_system_usage]: [stats['cpu_stats']['system_cpu_usage']]
    - [precpu_system_usage]: the same under ['precpu_stats']
    - [percpu_usage]: [stats['cpu_stats']['cpu_usage'].get('percpu_usage')]
    - [memory_stats]: [stats['memory_stats']], holding its optional
      ['usage']. *)
Record Stats : Type := {
  cpu_total_usage : option Z;
  precpu_total_usage : option Z;
  cpu_system_usage : option Z;
  precpu_system_usage : option Z;
  percpu_usage : option (list Z);
  memory_stats : option (option Z)
}.

(** A container of [client.containers.list(all=True)]: its status and
    what [container.stats(stream=False)] answers. *)
Record ListedContainer : Type := {
  lc_status : string;
  lc_stats : exn + Stats
}.

(** Line 28. *)
Definition initial_status_counts : gmap string nat :=
  <["other" := 0]> (<["paused" := 0]> (<["created" := 0]>
    (<["stopped" := 0]> (<["exited" := 0]> (<["running" := 0]> ∅))))).

(** Lines 34-37: [status_counts[k] += 1] for [k] the status when it is a
    key of the dict, for [k = "other"] otherwise. *)
Definition count_status (status : string) (status_counts : gmap string nat)
    : gmap string nat :=
  match status_counts !! status with
  | Some n => <[status := n + 1]> status_counts
  | None => <["other" := status_counts !!! "other" + 1]> status_counts
  end.

(** [len(stats['cpu_stats']['cpu_usage'].get('percpu_usage', [1]))]. *)
Definition cpu_count (stats : Stats) : nat :=
  length (get_or (percpu_usage stats) [1%Z]).

(** Lines 49-50; the division is Python's true division. *)
Definition cpu_percent (cpu_delta system_delta : Z) (cpus : nat) : Qc :=
  (Qc_of_Z cpu_delta / Qc_of_Z system_delta * Qc_of_Z (Z.of_nat cpus)
   * Qc_of_Z 100)%Qc.

(** Lines 42-54, the body of the [try]: the totals as left when the
    block ends or an exception leaves it, and the exception. *)
Definition add_usage (stats : Stats) (total_cpu : Qc) (total_memory : Z)
    : (Qc * Z) * (exn + unit) :=
  match index "total_usage" (cpu_total_usage stats) with
  | inl e => ((total_cpu, total_memory), inl e)
  | inr cur_total =>
  match index "total_usage" (precpu_total_usage stats) with
  | inl e => ((total_cpu, total_memory), inl e)
  | inr pre_total =>
  let cpu_delta := (cur_total - pre_total)%Z in
  match index "system_cpu_usage" (cpu_system_usage stats) with
  | inl e => ((total_cpu, total_memory), inl e)
  | inr cur_system =>
  match index "system_cpu_usage" (precpu_system_usage stats) with
  | inl e => ((total_cpu, total_memory), inl e)
  | inr pre_system =>
  let system_delta := (cur_system - pre_system)%Z in
  let total_cpu' :=
    if (0 <? system_delta)%Z then
      (total_cpu + cpu_percent cpu_delta system_delta (cpu_count stats))%Qc
    else total_cpu in
  match index "memory_stats" (memory_stats stats) with
  | inl e => ((total_cpu', total_memory), inl e)
  | inr mem => ((total_cpu', (total_memory + get_or mem 0)%Z), inr tt)
  end end end end end.

(** Lines 40-56: only a running container is sampled, and
    [except Exception: pass] drops the exception of the call or of the
    block. *)
Definition sample_container (c : ListedContainer) (status : string)
    (total_cpu : Qc) (total_memory : Z) : Qc * Z :=
  if String.eqb status "running" then
    match lc_stats c with
    | inl _ => (total_cpu, total_memory)
    | inr stats => (add_usage stats total_cpu total_memory).1
    end
  else (total_cpu, total_memory).

(** The state of the loop of lines 32-56. *)
Record Tally : Type := {
  status_counts : gmap string nat;
  total_cpu : Qc;
  total_memory : Z
}.

Definition tally_step (t : Tally) (c : ListedContainer) : Tally :=
  let status := Py.lower (lc_status c) in
  let counts := count_status status (status_counts t) in
  let usage := sample_container c status (total_cpu t) (total_memory t) in
  {| status_counts := counts; total_cpu := usage.1; total_memory := usage.2 |}.

Definition tally (containers : list ListedContainer) : Tally :=
  foldl tally_step
    {| status_counts := initial_status_counts;
       total_cpu := Q2Qc 0; total_memory := 0 |}
    containers.

(** The container part of the returned summary; [total_cpu_percent] is
    the value before [round(_, 2)].  The image, volume and network
    counts, the versions and [system_df] do not depend on the loop and
    are left out. *)
Record SystemInfo : Type := {
  containers_running : nat;
  containers_stopped : nat;
  containers_exited : nat;
  containers_created : nat;
  containers_paused : nat;
  containers_total : nat;
  total_cpu_percent : Qc;
  total_memory_bytes : Z
}.

Definition get_system_info (containers : list ListedContainer) : SystemInfo :=
  let t := tally containers in
  {| containers_running := status_counts t !!! "running";
     containers_stopped := status_counts t !!! "stopped";
     containers_exited := status_counts t !!! "exited";
     containers_created := status_counts t !!! "created";
     containers_paused := status_counts t !!! "paused";
     containers_total := length containers;
     total_cpu_percent := total_cpu t;
     total_memory_bytes := total_memory t |}.

(** * Concrete runs *)

(** The empty request: [updates = {}]. *)
Definition no_update : ContainerUpdate :=
  {| u_image := None; u_environment := None; u_volumes := None;
     u_networks := None; u_ports := None |}.

(** A runtime that answers every fetch of a container by [web], the
    stop, the removal and the creation as given, a start by success,
    the fetch of a network by the network itself, and the connection to
    network [n] by [connect n]. *)
Definition runtime_with (web : Container)
    (stop remove : exn + unit) (create : exn + string)
    (connect : string -> exn + unit) : Runtime :=
  {| rt_containers_get := fun _ _ => inr web;
     rt_stop := fun _ _ => stop;
     rt_remove := fun _ _ => remove;
     rt_run := fun _ _ => create;
     rt_create := fun _ _ => create;
     rt_start := fun _ _ => inr tt;
     rt_networks_get := fun _ n => inr n;
     rt_connect := fun _ n _ => connect n |}.

(** The container [web-1]: one bind mount, one named volume, two
    networks. *)
Definition web_attrs : Attrs :=
  {| Config_Image := "nginx:1.25";
     Config_Env := Some ["A=1"];
     Mounts := Some [ {| m_Type := Some "bind"; m_Source := Some "/srv";
                         m_Destination := Some "/www";
                         m_Mode := Some "ro" |};
                      {| m_Type := Some "volume"; m_Source := Some "data";
                         m_Destination := Some "/data";
                         m_Mode := Some "z" |} ];
     Networks := ["frontend"; "backend"];
     HostConfig_PortBindings := Some [("80/tcp", ["8080"])];
     HostConfig_Binds := Some ["/srv:/www:ro"] |}.

Definition web_running : Container :=
  {| c_name := "web-1"; c_status := "running"; c_attrs := web_attrs |}.

Definition web_exited : Container :=
  {| c_name := "web-1"; c_status := "exited"; c_attrs := web_attrs |}.

(** A second container, with another configuration. *)
Definition db_running : Container :=
  {| c_name := "web-1"; c_status := "running";
     c_attrs := {| Config_Image := "postgres:16"; Config_Env := None;
                   Mounts := None; Networks := [];
                   HostConfig_PortBindings := None;
                   HostConfig_Binds := None |} |}.

(** The requests that set one field. *)
Definition only_volumes (vols : list string) : ContainerUpdate :=
  {| u_image := None; u_environment := None; u_volumes := Some vols;
     u_networks := None; u_ports := None |}.


(** * Vocabulary of the statements *)

(** The calls of a trace, in order. *)
Definition calls (tr : Trace) : list Call := ev_call <$> tr.

(** Calls that bring a new container up or attach it to a network. *)
Definition creates (c : Call) : bool :=
  match c with
  | ContainersRun _ | ContainersCreate _ | ContainerStart _
  | NetworksGet _ | NetworkConnect _ _ => true
  | _ => false
  end.

(** Calls that change the state of the runtime. *)
Definition mutates (c : Call) : bool :=
  match c with
  | ContainersGet _ | NetworksGet _ => false
  | _ => true
  end.

(** The two calls that come before the creation. *)
Definition stops_or_removes (c : Call) : bool :=
  match c with
  | ContainerStop _ | ContainerRemove _ => true
  | _ => false
  end.

(** The network a call fetches. *)
Definition fetched_network (c : Call) : option string :=
  match c with NetworksGet n => Some n | _ => None end.

(** Calls of the reattachment loop. *)
Definition reattaches (c : Call) : bool :=
  match c with
  | NetworksGet _ | NetworkConnect _ _ => true
  | _ => false
  end.

(** A call that returned, and a call that raised [e]. *)
Definition ok (c : Call) : Event := {| ev_call := c; ev_error := None |}.

Definition failed (c : Call) (e : exn) : Event :=
  {| ev_call := c; ev_error := Some e |}.

(** What the [except] clauses of [update_container] turn [e] into. *)
Definition surfaced (container_id : string) (e : exn) : exn :=
  match e with
  | NotFound _ => PyException ("Container " +:+ container_id +:+ " not found")
  | APIError msg => PyException ("Failed to update container: " +:+ msg)
  | _ => e
  end.

(** The payload of line 252. *)
Definition updated (container_id : string) : Payload :=
  [("status", "success");
   ("message", "Container " +:+ container_id +:+ " updated and recreated")].


(** The events of one pass of the loop body: the fetch, and the connect
    when the fetch succeeded. *)
Definition attempt (rt : Runtime) (tr : Trace) (network h : string) : Trace :=
  match rt_networks_get rt tr network with
  | inl e => [failed (NetworksGet network) e]
  | inr net =>
      [ok (NetworksGet network);
       {| ev_call := NetworkConnect net h;
          ev_error :=
            error_of (rt_connect rt (tr ++ [ok (NetworksGet network)]) net h) |}]
  end.

(** The events of the whole loop. *)
Fixpoint reattach_events (rt : Runtime) (tr : Trace) (networks : list string)
    (h : string) : Trace :=
  match networks with
  | [] => []
  | n :: rest =>
      attempt rt tr n h ++ reattach_events rt (tr ++ attempt rt tr n h) rest h
  end.

(** The networks of the target configuration. *)
Definition target_networks (c : Container) (updates : ContainerUpdate)
    : list string :=
  get_or (u_networks updates) (Networks (c_attrs c)).

(** Every run of [update_container] has one of six shapes, decided by
    the first answer of the runtime that is an exception. *)
Inductive Outcome (rt : Runtime) (id : string) (updates : ContainerUpdate)
    : Trace * (exn + Payload) -> Prop :=
  | GetFailed e :
      rt_containers_get rt [] id = inl e ->
      Outcome rt id updates
        ([failed (ContainersGet id) e], inl (surfaced id e))
  | ConfigFailed c e :
      rt_containers_get rt [] id = inr c ->
      handle_volumes (c_attrs c) updates = inl e ->
      Outcome rt id updates ([ok (ContainersGet id)], inl (surfaced id e))
  | StopFailed c vb e :
      rt_containers_get rt [] id = inr c ->
      handle_volumes (c_attrs c) updates = inr vb ->
      rt_stop rt [ok (ContainersGet id)] c = inl e ->
      Outcome rt id updates
        ([ok (ContainersGet id); failed (ContainerStop (c_name c)) e],
         inl (surfaced id e))
  | RemoveFailed c vb e :
      rt_containers_get rt [] id = inr c ->
      handle_volumes (c_attrs c) updates = inr vb ->
      rt_stop rt [ok (ContainersGet id)] c = inr tt ->
      rt_remove rt [ok (ContainersGet id); ok (ContainerStop (c_name c))] c
        = inl e ->
      Outcome rt id updates
        ([ok (ContainersGet id); ok (ContainerStop (c_name c));
          failed (ContainerRemove (c_name c)) e],
         inl (surfaced id e))
  | CreateFailed c vb e :
      rt_containers_get rt [] id = inr c ->
      handle_volumes (c_attrs c) updates = inr vb ->
      rt_stop rt [ok (ContainersGet id)] c = inr tt ->
      rt_remove rt [ok (ContainersGet id); ok (ContainerStop (c_name c))] c
        = inr tt ->
      rt_run rt [ok (ContainersGet id); ok (ContainerStop (c_name c));
                 ok (ContainerRemove (c_name c))]
             (run_args c updates vb.1) = inl e ->
      Outcome rt id updates
        ([ok (ContainersGet id); ok (ContainerStop (c_name c));
          ok (ContainerRemove (c_name c));
          failed (ContainersRun (run_args c updates vb.1)) e],
         inl (surfaced id e))
  | Recreated c vb h :
      rt_containers_get rt [] id = inr c ->
      handle_volumes (c_attrs c) updates = inr vb ->
      rt_stop rt [ok (ContainersGet id)] c = inr tt ->
      rt_remove rt [ok (ContainersGet id); ok (ContainerStop (c_name c))] c
        = inr tt ->
      rt_run rt [ok (ContainersGet id); ok (ContainerStop (c_name c));
                 ok (ContainerRemove (c_name c))]
             (run_args c updates vb.1) = inr h ->
      Outcome rt id updates
        ([ok (ContainersGet id); ok (ContainerStop (c_name c));
          ok (ContainerRemove (c_name c));
          ok (ContainersRun (run_args c updates vb.1))]
         ++ reattach_events rt
              [ok (ContainersGet id); ok (ContainerStop (c_name c));
               ok (ContainerRemove (c_name c));
               ok (ContainersRun (run_args c updates vb.1))]
              (drop 1 (target_networks c updates)) h,
         inr (updated id)).

(** What the [except] clauses of [attach_volume_to_container] turn [e]
    into. *)
Definition attach_surfaced (e : exn) : exn :=
  match e with
  | NotFound _ => PyException "Container or volume not found"
  | APIError msg => PyException ("Failed to attach volume: " +:+ msg)
  | _ => e
  end.

(** The container a call stops, and the one a call starts. *)
Definition stopped (c : Call) : option string :=
  match c with ContainerStop n => Some n | _ => None end.

Definition started (c : Call) : option string :=
  match c with ContainerStart h => Some h | _ => None end.

(** A creation that succeeded. *)
Definition created (ev : Event) : bool :=
  match ev_call ev, ev_error ev with
  | (ContainersRun _ | ContainersCreate _), None => true
  | _, _ => false
  end.

(** The exception of line 588. *)
Definition already_attached (volume_name : string) : exn :=
  PyException ("Volume " +:+ volume_name
               +:+ " is already attached to this container").

(** A mount whose source and destination have no [':']. *)
Definition colon_free (m : Mount) : Prop :=
  Py.contains colon (get_or (m_Source m) EmptyString) = false
  ∧ Py.contains colon (get_or (m_Destination m) EmptyString) = false.




(** The keys of [status_counts]. *)
Definition status_keys : list string :=
  ["running"; "exited"; "stopped"; "created"; "paused"; "other"].

(** The six counters added up. *)
Definition bucket_sum (m : gmap string nat) : nat :=
  m !!! "running" + m !!! "stopped" + m !!! "exited" + m !!! "created"
  + m !!! "paused" + m !!! "other".

(** The statistics of a container whose four counters are all there. *)
Definition sample_pair (cur_total pre_total cur_system pre_system : Z)
    (percpu : option (list Z)) (mem : option (option Z)) : Stats :=
  {| cpu_total_usage := Some cur_total;
     precpu_total_usage := Some pre_total;
     cpu_system_usage := Some cur_system;
     precpu_system_usage := Some pre_system;
     percpu_usage := percpu;
     memory_stats := mem |}.

(** * Further models *)

(** ** Vocabulary of the summary *)

(** The counter a lower-cased status is counted under. *)
Definition bucket_of (status : string) : string :=
  if bool_decide (status ∈ status_keys) then status else "other".

(** What one container adds to the two totals. *)
Definition usage_of (c : ListedContainer) : Qc * Z :=
  sample_container c (Py.lower (lc_status c)) (Q2Qc 0) 0.

(** A container whose statistics are read: it is running and the call
    for its statistics returned. *)
Definition sampled (c : ListedContainer) : bool :=
  String.eqb (Py.lower (lc_status c)) "running"
  && match lc_stats c with inr _ => true | inl _ => false end.

(** [sum(...)] over integers. *)
Definition sumZ (l : list Z) : Z := foldr Z.add 0%Z l.

(** The memory one container adds. *)
Definition memory_of (c : ListedContainer) : Z := (usage_of c).2.

(** Complete statistics with a given memory usage. *)
Definition stats_of_usage (usage : Z) : Stats :=
  sample_pair 10 0 10 0 None (Some (Some usage)).

(** Statistics in which one of the four counters is missing. *)
Definition lacks_counter (stats : Stats) : Prop :=
  cpu_total_usage stats = None ∨ precpu_total_usage stats = None
  ∨ cpu_system_usage stats = None ∨ precpu_system_usage stats = None.

(** ** [DockerService.get_system_df] *)

(** The entries of [client.df()] that the function reads, every key
    optional as it is read with [.get]. *)
Record DfImage : Type := {
  img_Size : option Z;
  img_Containers : option Z
}.

Record DfContainer : Type := {
  dc_SizeRw : option Z;
  dc_State : option string
}.

Record UsageData : Type := {
  ud_Size : option Z;
  ud_RefCount : option Z
}.

Record DfVolume : Type := {
  vol_UsageData : option UsageData
}.

Record DfBuild : Type := {
  bc_Size : option Z
}.

(** The answer of [client.df()]. *)
Record Df : Type := {
  df_Images : option (list DfImage);
  df_Containers : option (list DfContainer);
  df_Volumes : option (list DfVolume);
  df_BuildCache : option (list DfBuild)
}.

(** One of the four inner dicts of the result: the three keys on
    success, the empty dict in the fallback. *)
Definition class_usage (total_size count reclaimable : Z) : gmap string Z :=
  <["reclaimable" := reclaimable]>
    (<["count" := count]> (<["total_size" := total_size]> ∅)).

Record SystemDf : Type := {
  sd_images : gmap string Z;
  sd_containers : gmap string Z;
  sd_volumes : gmap string Z;
  sd_build_cache : gmap string Z
}.

(** [v.get('UsageData', {}).get('Size', 0)] and the same for
    ['RefCount']. *)
Definition volume_size (v : DfVolume) : Z :=
  match vol_UsageData v with
  | Some u => get_or (ud_Size u) 0%Z
  | None => 0%Z
  end.

Definition volume_refcount (v : DfVolume) : Z :=
  match vol_UsageData v with
  | Some u => get_or (ud_RefCount u) 0%Z
  | None => 0%Z
  end.

(** The conditions of the three generator expressions. *)
Definition image_unused (img : DfImage) : bool :=
  (get_or (img_Containers img) 0 =? 0)%Z.

Definition container_not_running (c : DfContainer) : bool :=
  negb (bool_decide (dc_State c = Some "running")).

Definition volume_unused (v : DfVolume) : bool :=
  (volume_refcount v =? 0)%Z.

(** Lines 455-482; [answer] is what [self.client.df()] returns or
    raises, and the [except Exception] turns an exception into the four
    empty dicts. *)
Definition get_system_df (answer : exn + Df) : SystemDf :=
  match answer with
  | inl _ =>
      {| sd_images := ∅; sd_containers := ∅; sd_volumes := ∅;
         sd_build_cache := ∅ |}
  | inr df =>
      let images := get_or (df_Images df) [] in
      let containers := get_or (df_Containers df) [] in
      let volumes := get_or (df_Volumes df) [] in
      let build_cache := get_or (df_BuildCache df) [] in
      {| sd_images :=
           class_usage
             (sumZ ((λ img, get_or (img_Size img) 0%Z) <$> images))
             (Z.of_nat (length images))
             (sumZ ((λ img, get_or (img_Size img) 0%Z)
                    <$> List.filter image_unused images));
         sd_containers :=
           class_usage
             (sumZ ((λ c, get_or (dc_SizeRw c) 0%Z) <$> containers))
             (Z.of_nat (length containers))
             (sumZ ((λ c, get_or (dc_SizeRw c) 0%Z)
                    <$> List.filter container_not_running containers));
         sd_volumes :=
           class_usage
             (sumZ (volume_size <$> volumes))
             (Z.of_nat (length volumes))
             (sumZ (volume_size <$> List.filter volume_unused volumes));
         sd_build_cache :=
           class_usage
             (sumZ ((λ b, get_or (bc_Size b) 0%Z) <$> build_cache))
             (Z.of_nat (length build_cache))
             (sumZ ((λ b, get_or (bc_Size b) 0%Z) <$> build_cache)) |}
  end.

(** The sizes of the whole of a class are non-negative. *)
Definition df_sizes_nonneg (df : Df) : Prop :=
  Forall (λ img, 0 ≤ get_or (img_Size img) 0)%Z (get_or (df_Images df) [])
  ∧ Forall (λ c, 0 ≤ get_or (dc_SizeRw c) 0)%Z (get_or (df_Containers df) [])
  ∧ Forall (λ v, 0 ≤ volume_size v)%Z (get_or (df_Volumes df) []).

(** A sample answer of [client.df()]. *)
Definition sample_df : Df :=
  {| df_Images := Some [ {| img_Size := Some 100%Z; img_Containers := Some 1%Z |};
                         {| img_Size := Some 40%Z; img_Containers := None |} ];
     df_Containers := Some [ {| dc_SizeRw := Some 7%Z;
                                dc_State := Some "running" |};
                             {| dc_SizeRw := None; dc_State := Some "exited" |} ];
     df_Volumes := Some [ {| vol_UsageData :=
                               Some {| ud_Size := Some 9%Z;
                                       ud_RefCount := Some 0%Z |} |} ];
     df_BuildCache := None |}.

(** ** [DockerService.create_volume] and [DockerService.list_volumes] *)

(** The keyword arguments of [client.volumes.create]. *)
Record VolumeCreateArgs : Type := {
  vc_name : string;
  vc_driver : string;
  vc_driver_opts : gmap string string
}.

(** A volume object: its name and, of [vol.attrs], the keys read. *)
Record Volume : Type := {
  v_name : string;
  v_Options : option (gmap string string);
  v_Driver : option string;
  v_Mountpoint : option string
}.

(** [options or {}]. *)
Definition options_or_empty (options : option (gmap string string))
    : gmap string string :=
  get_or options ∅.

(** [if host_path:] on an [Optional[str]]. *)
Definition host_path_given (host_path : option string) : option string :=
  match host_path with
  | Some EmptyString | None => None
  | Some p => Some p
  end.

(** Lines 329-346: the arguments of the one call. *)
Definition create_volume_args (name driver : string)
    (options : option (gmap string string)) (host_path : option string)
    : VolumeCreateArgs :=
  match host_path_given host_path with
  | Some p =>
      let driver_opts := options_or_empty options in
      let driver_opts := <["type" := "none"]> driver_opts in
      let driver_opts := <["o" := "bind"]> driver_opts in
      let driver_opts := <["device" := p]> driver_opts in
      {| vc_name := name; vc_driver := driver; vc_driver_opts := driver_opts |}
  | None =>
      {| vc_name := name; vc_driver := driver;
         vc_driver_opts := options_or_empty options |}
  end.


(** One entry of the result of [list_volumes]. *)
Record VolumeInfo : Type := {
  vi_name : string;
  vi_driver : string;
  vi_mountpoint : string;
  vi_host_path : string;
  vi_is_bind_mount : bool
}.

(** A dict is true when it is not empty; [None] is false. *)
Definition options_truthy (o : option (gmap string string)) : bool :=
  match o with
  | Some m => negb (bool_decide (m = ∅))
  | None => false
  end.

(** Lines 368-379, the body of the loop. *)
Definition volume_info (vol : Volume) : VolumeInfo :=
  let driver_opts := v_Options vol in
  let opts := get_or driver_opts ∅ in
  let host_path :=
    if options_truthy driver_opts then get_or (opts !! "device") EmptyString
    else EmptyString in
  let is_bind :=
    if options_truthy driver_opts then
      bool_decide (opts !! "type" = Some "none")
      && bool_decide (opts !! "o" = Some "bind")
    else false in
  {| vi_name := v_name vol;
     vi_driver := get_or (v_Driver vol) "unknown";
     vi_mountpoint := get_or (v_Mountpoint vol) EmptyString;
     vi_host_path := host_path;
     vi_is_bind_mount := is_bind |}.

Definition list_volumes (volumes : list Volume) : list VolumeInfo :=
  volume_info <$> volumes.

(** ** The shapes of the runs of [attach_volume_to_container] *)

(** The payload of line 619. *)
Definition attached (volume_name : string) : Payload :=
  [("status", "success");
   ("message", "Volume " +:+ volume_name +:+ " attached to container")].

(** The stop issued for a running container, and none for another. *)
Definition stop_events (c : Container) : Trace :=
  if String.eqb (c_status c) "running" then [ok (ContainerStop (c_name c))]
  else [].

(** Every run of [attach_volume_to_container] has one of seven shapes,
    decided by the first step that raises. *)
Inductive AttachOutcome (rt : Runtime)
    (id volume_name mount_point mode : string)
    : Trace * (exn + Payload) -> Prop :=
  | AttachGetFailed e :
      rt_containers_get rt [] id = inl e ->
      AttachOutcome rt id volume_name mount_point mode
        ([failed (ContainersGet id) e], inl (attach_surfaced e))
  | AttachConflict c e :
      rt_containers_get rt [] id = inr c ->
      check_not_mounted (get_or (Mounts (c_attrs c)) []) volume_name = inl e ->
      AttachOutcome rt id volume_name mount_point mode
        ([ok (ContainersGet id)], inl (attach_surfaced e))
  | AttachStopFailed c e :
      rt_containers_get rt [] id = inr c ->
      check_not_mounted (get_or (Mounts (c_attrs c)) []) volume_name = inr tt ->
      String.eqb (c_status c) "running" = true ->
      rt_stop rt [ok (ContainersGet id)] c = inl e ->
      AttachOutcome rt id volume_name mount_point mode
        ([ok (ContainersGet id); failed (ContainerStop (c_name c)) e],
         inl (attach_surfaced e))
  | AttachRemoveFailed c e :
      rt_containers_get rt [] id = inr c ->
      check_not_mounted (get_or (Mounts (c_attrs c)) []) volume_name = inr tt ->
      rt_remove rt (ok (ContainersGet id) :: stop_events c) c = inl e ->
      AttachOutcome rt id volume_name mount_point mode
        (ok (ContainersGet id) :: stop_events c
         ++ [failed (ContainerRemove (c_name c)) e],
         inl (attach_surfaced e))
  | AttachCreateFailed c e :
      rt_containers_get rt [] id = inr c ->
      check_not_mounted (get_or (Mounts (c_attrs c)) []) volume_name = inr tt ->
      rt_create rt
        (ok (ContainersGet id) :: stop_events c
         ++ [ok (ContainerRemove (c_name c))])
        (create_args c volume_name mount_point mode) = inl e ->
      AttachOutcome rt id volume_name mount_point mode
        (ok (ContainersGet id) :: stop_events c
         ++ [ok (ContainerRemove (c_name c));
             failed (ContainersCreate
                       (create_args c volume_name mount_point mode)) e],
         inl (attach_surfaced e))
  | AttachStartFailed c h e :
      rt_containers_get rt [] id = inr c ->
      check_not_mounted (get_or (Mounts (c_attrs c)) []) volume_name = inr tt ->
      String.eqb (c_status c) "running" = true ->
      rt_create rt
        [ok (ContainersGet id); ok (ContainerStop (c_name c));
         ok (ContainerRemove (c_name c))]
        (create_args c volume_name mount_point mode) = inr h ->
      AttachOutcome rt id volume_name mount_point mode
        ([ok (ContainersGet id); ok (ContainerStop (c_name c));
          ok (ContainerRemove (c_name c));
          ok (ContainersCreate (create_args c volume_name mount_point mode));
          failed (ContainerStart h) e],
         inl (attach_surfaced e))
  | Attached c h :
      rt_containers_get rt [] id = inr c ->
      check_not_mounted (get_or (Mounts (c_attrs c)) []) volume_name = inr tt ->
      rt_create rt
        (ok (ContainersGet id) :: stop_events c
         ++ [ok (ContainerRemove (c_name c))])
        (create_args c volume_name mount_point mode) = inr h ->
      AttachOutcome rt id volume_name mount_point mode
        (ok (ContainersGet id) :: stop_events c
         ++ [ok (ContainerRemove (c_name c));
             ok (ContainersCreate
                   (create_args c volume_name mount_point mode))]
         ++ (if String.eqb (c_status c) "running"
             then [ok (ContainerStart h)] else []),
         inr (attached volume_name)).

(** An exception of the Docker client. *)
Definition docker_error (e : exn) : bool :=
  match e with
  | NotFound _ | APIError _ => true
  | _ => false
  end.

(** ** [DockerService.start_container] *)

Definition start_handlers (container_id : string) (e : exn)
    : option (M Payload) :=
  match e with
  | NotFound _ =>
      Some (raise (PyException ("Container " +:+ container_id +:+ " not found")))
  | APIError msg =>
      Some (raise (PyException ("Failed to start container: " +:+ msg)))
  | _ => None
  end.

(** Lines 148-157; the fetched container is named by its name. *)
Definition start_container (container_id : string) : M Payload :=
  try_except
    (container ← containers_get container_id;
     container_start (c_name container);;
     mret [("status", "success");
           ("message", "Container " +:+ container_id +:+ " started")])
    (start_handlers container_id).

(** ** The cache client of [db/redis_client.py] and the endpoints of
       [api/docker.py] *)

(** [str(e)]; the string of a [KeyError] is the [repr] of its key. *)
Definition str_exn (e : exn) : string :=
  match e with
  | KeyError key => "'" +:+ key +:+ "'"
  | NotFound msg | APIError msg | ValueError msg | PyException msg
  | OtherError msg => msg
  end.

(** [HTTPException(status_code=..., detail=...)]. *)
Record HTTPException : Type := {
  status_code : nat;
  detail : string
}.

(** The client object: [self.redis] is [None] until [connect()] has
    run; the server, once there, is its keys with their string values
    and the expiry they were set with.  The server answers every
    command, and no time passes between two calls. *)
Record RedisClient : Type := {
  redis : option (gmap string (string * nat))
}.

Section Cache.

(** The values of [json]: [loads] answers [None] where [json.loads]
    raises [JSONDecodeError], [truthy] is [bool(value)]. *)
Variable JSON : Type.
Variable loads : string -> option JSON.
Variable dumps : JSON -> string.
Variable truthy : JSON -> bool.

(** What is handed to [set]: a dict or a list, or a string. *)
Inductive PyValue : Type :=
  | Collection (j : JSON)
  | Text (s : string).

(** [RedisClient.get]. *)
Definition redis_get (key : string) (r : RedisClient) : option (JSON + string) :=
  match redis r with
  | None => None
  | Some server =>
      match server !! key with
      | Some (EmptyString, _) | None => None
      | Some (value, _) =>
          match loads value with
          | Some j => Some (inl j)
          | None => Some (inr value)
          end
      end
  end.

(** [RedisClient.set]. *)
Definition redis_set (key : string) (value : PyValue) (expire : nat)
    (r : RedisClient) : RedisClient :=
  match redis r with
  | None => r
  | Some server =>
      let value := match value with
                   | Collection j => dumps j
                   | Text s => s
                   end in
      {| redis := Some (<[key := (value, expire)]> server) |}
  end.

(** [RedisClient.delete]. *)
Definition redis_delete (key : string) (r : RedisClient) : RedisClient :=
  match redis r with
  | None => r
  | Some server => {| redis := Some (delete key server) |}
  end.

(** The key of the cached summary. *)
Definition system_info_key : string := "docker:system_info".

(** [if cached:]. *)
Definition cached_truthy (cached : option (JSON + string)) : bool :=
  match cached with
  | None => false
  | Some (inl j) => truthy j
  | Some (inr s) => negb (String.eqb s EmptyString)
  end.

(** Lines 43-50 of [api/docker.py]: the summary is computed, cached for
    30 seconds and returned; [service] is what
    [docker_service.get_system_info()] returns, the summary as a dict,
    or raises. *)
Definition recompute_system_info (service : exn + JSON) (r : RedisClient)
    : RedisClient * (HTTPException + (JSON + string)) :=
  match service with
  | inl e => (r, inl {| status_code := 500; detail := str_exn e |})
  | inr info =>
      (redis_set system_info_key (Collection info) 30 r, inr (inl info))
  end.

(** The endpoint [GET /system]. *)
Definition get_system_info_endpoint (service : exn + JSON) (r : RedisClient)
    : RedisClient * (HTTPException + (JSON + string)) :=
  match redis_get system_info_key r with
  | Some cached =>
      if cached_truthy (Some cached) then (r, inr cached)
      else recompute_system_info service r
  | None => recompute_system_info service r
  end.

(** The endpoint [POST /containers/{id}/start]: the cached summary is
    deleted once the service has returned. *)
Definition start_container_endpoint (container_id : string)
    (r : RedisClient) (rt : Runtime)
    : RedisClient * Trace * (HTTPException + Payload) :=
  match run (start_container container_id) rt with
  | (tr, inr result) => (redis_delete system_info_key r, tr, inr result)
  | (tr, inl e) => (r, tr, inl {| status_code := 500; detail := str_exn e |})
  end.

(** The endpoints [PUT /containers/{id}] and
    [POST /containers/{id}/volumes]: the cache is not touched. *)
Definition update_container_endpoint (container_id : string)
    (updates : ContainerUpdate) (r : RedisClient) (rt : Runtime)
    : RedisClient * Trace * (HTTPException + Payload) :=
  match run (update_container container_id updates) rt with
  | (tr, inr result) => (r, tr, inr result)
  | (tr, inl e) => (r, tr, inl {| status_code := 500; detail := str_exn e |})
  end.

Definition attach_volume_endpoint
    (container_id volume_name mount_point mode : string)
    (r : RedisClient) (rt : Runtime)
    : RedisClient * Trace * (HTTPException + Payload) :=
  match run (attach_volume_to_container container_id volume_name mount_point
               mode) rt with
  | (tr, inr result) => (r, tr, inr result)
  | (tr, inl e) => (r, tr, inl {| status_code := 500; detail := str_exn e |})
  end.

End Cache.

Arguments Collection {JSON} j.
Arguments Text {JSON} s.
Arguments redis_get {JSON} loads key r.
Arguments redis_set {JSON} dumps key value expire r.
Arguments cached_truthy {JSON} truthy cached.
Arguments recompute_system_info {JSON} dumps service r.
Arguments get_system_info_endpoint {JSON} loads dumps truthy service r.

(** A stand-in for [json] on which the examples run: a value is its own
    text, and text is JSON when it opens with a brace. *)
Definition braces_loads (s : string) : option string :=
  match s with
  | String "{"%char _ => Some s
  | _ => None
  end.

Definition braces_dumps (j : string) : string := j.

(** ** The file name of an exported image, [api/docker.py] *)

(** [s.replace(old, new)] for one-character [old] and [new]. *)
Fixpoint replace_char (old new : ascii) (s : string) : string :=
  match s with
  | EmptyString => EmptyString
  | String c rest =>
      String (if Ascii.eqb c old then new else c) (replace_char old new rest)
  end.

(** Line 295 of [api/docker.py]. *)
Definition export_filename (image_name tag : string) : string :=
  replace_char "/" "_" image_name +:+ "_" +:+ tag +:+ ".tar".

(** ** [DockerService.get_compose_file] and
       [DockerService.update_compose_file] *)

(** What the two functions act on: the answer of the runtime to
    [containers.get], of which the labels alone are read; the file
    system, asked to write and to read the file [docker-compose.yml] of
    a directory; and the outcome of
    [docker-compose up -d --force-recreate] run in a directory, its
    return code and its standard error, or the exception of
    [subprocess.run].

    [ce_write_text dir text] is [None] when [write_text] returns, the
    file then holding [text]; it is [Some (e, remains)] when the call
    raises [e] (a directory that is missing or cannot be written to, a
    device that is full, a text that cannot be encoded), [remains]
    being what is left of the file, [None] for no file.
    [ce_read_text dir] is the exception that [exists] or [read_text]
    raises on a file that is there, if any. *)
Record ComposeEnv : Type := {
  ce_labels : string -> exn + gmap string string;
  ce_write_text : string -> string -> option (exn * option string);
  ce_read_text : string -> option exn;
  ce_compose_up : string -> gmap string string -> exn + (Z * string)
}.

(** What a call leaves behind: the file [docker-compose.yml] of each
    project directory that has one, and the directories in which the
    command was run. *)
Record ComposeState : Type := {
  cs_files : gmap string string;
  cs_commands : list string
}.

Definition compose_project : string := "com.docker.compose.project".

Definition compose_working_dir : string :=
  "com.docker.compose.project.working_dir".

(** Lines 258-277; [except Exception: return None]. *)
Definition get_compose_file (container_id : string) (env : ComposeEnv)
    (st : ComposeState) : option string :=
  match ce_labels env container_id with
  | inl _ => None
  | inr labels =>
      match labels !! compose_project with
      | None => None
      | Some _ =>
          match get_or (labels !! compose_working_dir) EmptyString with
          | EmptyString => None
          | project_dir =>
              match cs_files st !! project_dir, ce_read_text env project_dir with
              | Some text, None => Some text
              | _, _ => None
              end
          end
      end
  end.

(** The two [except] clauses of [update_compose_file]: the second
    catches every exception that is not a [NotFound], those the
    function raised itself included. *)
Definition compose_surfaced (container_id : string) (e : exn) : exn :=
  match e with
  | NotFound _ => PyException ("Container " +:+ container_id +:+ " not found")
  | _ => PyException ("Failed to update compose: " +:+ str_exn e)
  end.

(** The files after [compose_file.write_text(compose_content)], lines
    292-293, and the exception it raised, if any. *)
Definition write_text (env : ComposeEnv) (project_dir text : string)
    (files : gmap string string) : gmap string string * option exn :=
  match ce_write_text env project_dir text with
  | None => (<[project_dir := text]> files, None)
  | Some (e, Some remains) => (<[project_dir := remains]> files, Some e)
  | Some (e, None) => (delete project_dir files, Some e)
  end.

(** Lines 279-311.  An exception of [write_text] is caught by the
    second [except] clause, before the command is run. *)
Definition update_compose_file (container_id compose_content : string)
    (env : ComposeEnv) (st : ComposeState)
    : ComposeState * (exn + Payload) :=
  match ce_labels env container_id with
  | inl e => (st, inl (compose_surfaced container_id e))
  | inr labels =>
      match labels !! compose_project with
      | None =>
          (st, inl (compose_surfaced container_id
                      (PyException
                         "Container was not started with docker-compose")))
      | Some _ =>
          match get_or (labels !! compose_working_dir) EmptyString with
          | EmptyString =>
              (st, inl (compose_surfaced container_id
                          (PyException
                             "Cannot determine compose project directory")))
          | project_dir =>
              match write_text env project_dir compose_content (cs_files st) with
              | (files, Some e) =>
                  ({| cs_files := files; cs_commands := cs_commands st |},
                   inl (compose_surfaced container_id e))
              | (files, None) =>
                  let st' := {| cs_files := files;
                                cs_commands := cs_commands st ++ [project_dir] |} in
                  match ce_compose_up env project_dir files with
                  | inl e => (st', inl (compose_surfaced container_id e))
                  | inr (returncode, stderr) =>
                      if (returncode =? 0)%Z then
                        (st', inr [("status", "success");
                                   ("message",
                                    "Container recreated with new compose configuration")])
                      else
                        (st', inl (compose_surfaced container_id
                                     (PyException
                                        ("Failed to recreate container: "
                                         +:+ stderr))))
                  end
              end
          end
      end
  end.

(** An environment in which every container has the labels [labels],
    every file can be written and read, and the command returns
    [returncode]. *)
Definition compose_env (labels : gmap string string) (returncode : Z)
    : ComposeEnv :=
  {| ce_labels := λ _, inr labels;
     ce_write_text := λ _ _, None;
     ce_read_text := λ _, None;
     ce_compose_up := λ _ _, inr (returncode, "no such service") |}.

(** * Properties *)

(** ** The reattachment loop *)

Lemma connect_networks_cons (n : string) (rest : list string) (h : string)
    (rt : Runtime) (tr : Trace) :
  connect_networks (n :: rest) h rt tr
  = connect_networks rest h rt (tr ++ attempt rt tr n h).
Proof.
  cbn [connect_networks]. unfold mbind, M_bind, try_except, attempt.
  unfold networks_get, network_connect, call. cbn beta zeta.
  destruct (rt_networks_get rt tr n) as [e|net]; cbn [error_of]; [done|].
  unfold ok.
  destruct (rt_connect rt _ net h) as [e|[]]; cbn; by rewrite <- app_assoc.
Qed.

(** The loop never raises, whatever the runtime answers. *)
Lemma connect_networks_run (networks : list string) (h : string)
    (rt : Runtime) (tr : Trace) :
  connect_networks networks h rt tr
  = (tr ++ reattach_events rt tr networks h, inr tt).
Proof.
  revert tr. induction networks as [|n rest IH]; intros tr.
  - cbn. by rewrite app_nil_r.
  - rewrite connect_networks_cons, IH. cbn [reattach_events].
    by rewrite <- app_assoc.
Qed.

Lemma attempt_reattaches (rt : Runtime) (tr : Trace) (n h : string) :
  Forall (λ ev, reattaches (ev_call ev) = true) (attempt rt tr n h)
  ∧ omap fetched_network (calls (attempt rt tr n h)) = [n].
Proof.
  unfold attempt. destruct (rt_networks_get rt tr n); split;
    by repeat constructor.
Qed.

(** It issues only fetches and connects. *)
Lemma reattach_events_reattach (networks : list string) (h : string)
    (rt : Runtime) (tr : Trace) :
  Forall (λ ev, reattaches (ev_call ev) = true)
         (reattach_events rt tr networks h).
Proof.
  revert tr. induction networks as [|n rest IH]; intros tr; cbn.
  - constructor.
  - apply Forall_app. split; [apply attempt_reattaches | apply IH].
Qed.


(** ** The runs of [update_container] *)

Lemma surfaced_handlers (id : string) (e : exn) (rt : Runtime) (tr : Trace) :
  match update_handlers id e with
  | Some h => h rt tr
  | None => (tr, inl e)
  end = (tr, inl (surfaced id e)).
Proof. by destruct e. Qed.

Lemma update_container_outcome (rt : Runtime) (id : string)
    (updates : ContainerUpdate) :
  Outcome rt id updates (run (update_container id updates) rt).
Proof.
  unfold run, update_container, try_except, mbind, M_bind.
  unfold containers_get, container_stop, container_remove, containers_run,
    lift, call. cbn beta zeta.
  destruct (rt_containers_get rt [] id) as [e|c] eqn:Hget; cbn [error_of].
  { rewrite surfaced_handlers. by constructor. }
  destruct (handle_volumes (c_attrs c) updates) as [e|vb] eqn:Hvol.
  { rewrite surfaced_handlers. by econstructor. }
  cbn [app]. destruct (rt_stop rt _ c) as [e|[]] eqn:Hstop; cbn [error_of].
  { rewrite surfaced_handlers. by econstructor. }
  destruct (rt_remove rt _ c) as [e|[]] eqn:Hrem; cbn [error_of app].
  { rewrite surfaced_handlers. by econstructor. }
  destruct (rt_run rt _ _) as [e|h] eqn:Hrun; cbn [error_of app].
  { rewrite surfaced_handlers. by econstructor. }
  rewrite connect_networks_run.
  by eapply Recreated.
Qed.

(** Membership in a trace written out event by event. *)
Ltac in_trace :=
  repeat match goal with
    | H : _ ∈ _ ++ _ |- _ => apply elem_of_app in H as [H|H]
    | H : _ ∈ _ :: _ |- _ => apply elem_of_cons in H as [H|H]
    | H : _ ∈ [] |- _ => by apply elem_of_nil in H
    | H : failed _ _ = _ |- _ => unfold failed, ok in H; simplify_eq
    | H : ok _ = _ |- _ => unfold failed, ok in H; simplify_eq
    end.

(** An event of the reattachment loop is neither a stop, a removal nor
    a creation. *)
Lemma reattach_event_inv (rt : Runtime) (tr : Trace) (networks : list string)
    (h : string) (ev : Event) :
  ev ∈ reattach_events rt tr networks h -> reattaches (ev_call ev) = true.
Proof.
  intros Hin.
  pose proof (reattach_events_reattach networks h rt tr) as Hall.
  rewrite List.Forall_forall in Hall. apply Hall. by apply list_elem_of_In.
Qed.

(** A connection issued by the loop attaches the container the loop was
    given, to a network the runtime handed out for a name of the list. *)
Lemma reattach_events_connect (rt : Runtime) (tr : Trace)
    (networks : list string) (h net container : string) :
  NetworkConnect net container ∈ calls (reattach_events rt tr networks h) ->
  container = h
  ∧ ∃ tr' n, n ∈ networks ∧ rt_networks_get rt tr' n = inr net.
Proof.
  revert tr. induction networks as [|n rest IH]; intros tr Hin;
    [by apply elem_of_nil in Hin|].
  cbn [reattach_events] in Hin. unfold calls in Hin.
  rewrite fmap_app in Hin. apply elem_of_app in Hin as [Hin|Hin].
  - unfold attempt in Hin.
    destruct (rt_networks_get rt tr n) as [e|net'] eqn:Hget;
      cbn in Hin; in_trace; simplify_eq.
    split; [done|]. exists tr, n. split; [apply list_elem_of_here | done].
  - apply IH in Hin as (-> & tr' & n' & Hn' & Hget).
    split; [done|]. exists tr', n'. split; [by apply list_elem_of_further|done].
Qed.


(** ** Failures before the destructive step *)

(** C3. When [old_container.stop()] or [old_container.remove()] raises,
    [update_container] ends with an exception, no creating, starting or
    network call is issued at all, and no removal has succeeded: the
    original container is still there. *)
Theorem stop_or_remove_failure_aborts (rt : Runtime) (id : string)
    (updates : ContainerUpdate) (tr : Trace) (res : exn + Payload)
    (c : Call) (e : exn) :
  run (update_container id updates) rt = (tr, res) ->
  stops_or_removes c = true ->
  failed c e ∈ tr ->
  res = inl (surfaced id e)
  ∧ Forall (λ ev, creates (ev_call ev) = false) tr
  ∧ (∀ n, ok (ContainerRemove n) ∉ tr)
  ∧ list.last tr = Some (failed c e).
Proof.
  intros Hrun Hc Hin.
  pose proof (update_container_outcome rt id updates) as Hout.
  rewrite Hrun in Hout.
  inversion Hout; subst.
  all: in_trace.
  all: try discriminate Hc.
  all: try (split; [done|]; split; [by repeat constructor|]; split; [|done];
         intros n Hn; in_trace).
  apply reattach_event_inv in Hin. by destruct c.
Qed.

Lemma stop_or_remove_failure_aborts_witness :
  let rt := runtime_with web_running (inr tt) (inl (APIError "in use"))
              (inr "new") (λ _, inr tt) in
  let r := run (update_container "web-1" no_update) rt in
  r.2 = inl (PyException "Failed to update container: in use")
  ∧ Forall (λ ev, creates (ev_call ev) = false) r.1
  ∧ (∀ n, ok (ContainerRemove n) ∉ r.1)
  ∧ list.last r.1
    = Some (failed (ContainerRemove "web-1") (APIError "in use")).
Proof.
  intros rt r.
  apply (stop_or_remove_failure_aborts rt "web-1" no_update r.1 r.2
           (ContainerRemove "web-1") (APIError "in use")).
  - reflexivity.
  - reflexivity.
  - vm_compute. do 2 apply list_elem_of_further. apply list_elem_of_here.
Defined.

(** ** Failure of the creation *)

(** C2, as the code has it.  When [client.containers.run] raises [e]
    the call ends with [surfaced id e], the wrapping every other step
    gets; the failed creation is the last call issued, after the
    successful stop and removal, and it is the only creation attempted. *)
Theorem create_failure_is_terminal (rt : Runtime) (id : string)
    (updates : ContainerUpdate) (tr : Trace) (res : exn + Payload)
    (args : RunArgs) (e : exn) :
  run (update_container id updates) rt = (tr, res) ->
  failed (ContainersRun args) e ∈ tr ->
  res = inl (surfaced id e)
  ∧ ∃ n, tr = [ok (ContainersGet id); ok (ContainerStop n);
               ok (ContainerRemove n); failed (ContainersRun args) e].
Proof.
  intros Hrun Hin.
  pose proof (update_container_outcome rt id updates) as Hout.
  rewrite Hrun in Hout.
  inversion Hout; subst; in_trace.
  - split; [done|]. by eexists.
  - by apply reattach_event_inv in Hin.
Qed.

Lemma create_failure_is_terminal_witness :
  let rt := runtime_with web_running (inr tt) (inr tt)
              (inl (APIError "no such image")) (λ _, inr tt) in
  let r := run (update_container "web-1" no_update) rt in
  let args := run_args web_running no_update {[ "/www" := tt ]} in
  r.2 = inl (PyException "Failed to update container: no such image")
  ∧ ∃ n, r.1 = [ok (ContainersGet "web-1"); ok (ContainerStop n);
                ok (ContainerRemove n);
                failed (ContainersRun args) (APIError "no such image")].
Proof.
  intros rt r args.
  apply (create_failure_is_terminal rt "web-1" no_update r.1 r.2 args
           (APIError "no such image")).
  - reflexivity.
  - vm_compute. do 3 apply list_elem_of_further. apply list_elem_of_here.
Defined.

(** C2 as stated fails: the exception of a lost recreation is the very
    exception of a failed removal, which lost nothing, and it is the
    same for two different captured configurations. *)
Lemma create_failure_not_distinguished :
  let api := APIError "boom" in
  let lost := run (update_container "web-1" no_update)
                (runtime_with web_running (inr tt) (inr tt) (inl api)
                   (λ _, inr tt)) in
  let kept := run (update_container "web-1" no_update)
                (runtime_with web_running (inr tt) (inl api) (inr "new")
                   (λ _, inr tt)) in
  let lost' := run (update_container "web-1" no_update)
                 (runtime_with db_running (inr tt) (inr tt) (inl api)
                    (λ _, inr tt)) in
  ok (ContainerRemove "web-1") ∈ lost.1
  ∧ list.last (calls lost.1)
    = Some (ContainersRun (run_args web_running no_update {[ "/www" := tt ]}))
  ∧ lost.2 = inl (PyException "Failed to update container: boom")
  ∧ list.last kept.1 = Some (failed (ContainerRemove "web-1") api)
  ∧ kept.2 = lost.2
  ∧ lost'.2 = lost.2.
Proof.
  cbv zeta. split; [|by vm_compute].
  vm_compute. do 2 apply list_elem_of_further. apply list_elem_of_here.
Qed.

(** ** Reattachment *)




(** ** Stopping and starting *)

(** [update_container] stops the old container and creates the new one
    with [run], which starts it, whatever the status of the old one:
    the status is never read. *)
Lemma update_container_status_blind (updates : ContainerUpdate)
    (c : Container) (status : string) :
  let c' := {| c_name := c_name c; c_status := status; c_attrs := c_attrs c |} in
  run_args c' updates = run_args c updates
  ∧ ∀ vb, ra_detach (run_args c updates vb) = true.
Proof. done. Qed.

(** C5 at a container that is not running: [update_container] on the
    exited [web-1] issues [stop] all the same, and brings the new
    container up with [run(detach=True)], so it ends up started. *)
Lemma update_container_restarts_exited :
  let rt := runtime_with web_exited (inr tt) (inr tt) (inr "new")
              (λ _, inr tt) in
  let args := run_args web_exited no_update {[ "/www" := tt ]} in
  c_status web_exited = "exited"
  ∧ run (update_container "web-1" no_update) rt
    = ([ok (ContainersGet "web-1"); ok (ContainerStop "web-1");
        ok (ContainerRemove "web-1"); ok (ContainersRun args);
        ok (NetworksGet "backend"); ok (NetworkConnect "backend" "new")],
       inr (updated "web-1"))
  ∧ ra_detach args = true.
Proof. by vm_compute. Qed.

Lemma attach_surfaced_handlers (e : exn) (rt : Runtime) (tr : Trace) :
  match attach_handlers e with
  | Some h => h rt tr
  | None => (tr, inl e)
  end = (tr, inl (attach_surfaced e)).
Proof. by destruct e. Qed.

(** The sibling path.  On a container that the runtime knows and that
    does not hold the volume yet, [attach_volume_to_container] issues
    [stop] exactly when the status is ['running'], and [start] exactly
    when moreover the creation succeeded. *)
Lemma attach_volume_stop_start (rt : Runtime)
    (id volume_name mount_point mode : string) (c : Container) :
  rt_containers_get rt [] id = inr c ->
  check_not_mounted (get_or (Mounts (c_attrs c)) []) volume_name = inr tt ->
  let tr := (run (attach_volume_to_container id volume_name mount_point mode)
               rt).1 in
  let was_running := String.eqb (c_status c) "running" in
  omap stopped (calls tr) = (if was_running then [c_name c] else [])
  ∧ length (omap started (calls tr))
    = (if was_running then length (List.filter created tr) else 0).
Proof.
  intros Hget Hcheck.
  unfold run, attach_volume_to_container, try_except, mbind, M_bind.
  unfold containers_get, container_stop, container_remove, containers_create,
    container_start, lift, call. cbn beta zeta.
  rewrite Hget, Hcheck. cbn [error_of app].
  destruct (String.eqb (c_status c) "running").
  - destruct (rt_stop rt _ c) as [e|[]]; cbn [error_of app];
      [by rewrite attach_surfaced_handlers|].
    destruct (rt_remove rt _ c) as [e|[]]; cbn [error_of app];
      [by rewrite attach_surfaced_handlers|].
    destruct (rt_create rt _ _) as [e|h]; cbn [error_of app];
      [by rewrite attach_surfaced_handlers|].
    destruct (rt_start rt _ h) as [e|[]]; cbn [error_of app];
      [by rewrite attach_surfaced_handlers|done].
  - cbn. destruct (rt_remove rt _ c) as [e|[]]; cbn [error_of app];
      [by rewrite attach_surfaced_handlers|].
    destruct (rt_create rt _ _) as [e|h]; cbn [error_of app];
      [by rewrite attach_surfaced_handlers|done].
Qed.

(** In [update_container] the stop is issued whenever the container was
    fetched and its mounts were read, and the only creating call is
    [run]: no [start] of its own is ever issued or withheld. *)
Lemma update_container_stop_start (rt : Runtime) (id : string)
    (updates : ContainerUpdate) (c : Container)
    (vb : gmap string unit * list string) :
  rt_containers_get rt [] id = inr c ->
  handle_volumes (c_attrs c) updates = inr vb ->
  let tr := (run (update_container id updates) rt).1 in
  omap stopped (calls tr) = [c_name c]
  ∧ omap started (calls tr) = [].
Proof.
  intros Hget Hvol tr.
  pose proof (update_container_outcome rt id updates) as Hout.
  destruct (run (update_container id updates) rt) as [tr0 res] eqn:Hrun.
  subst tr. cbn [fst].
  assert (Hloop : ∀ t ns h,
             omap stopped (calls (reattach_events rt t ns h)) = []
             ∧ omap started (calls (reattach_events rt t ns h)) = []).
  { intros t ns h. revert t. induction ns as [|n ns IH]; intros t; [done|].
    cbn [reattach_events]. unfold calls in *.
    rewrite !fmap_app, !omap_app.
    destruct (IH (t ++ attempt rt t n h)) as [-> ->].
    unfold attempt. by destruct (rt_networks_get rt t n). }
  inversion Hout as [e H1 | c0 e H1 H2 | c0 vb0 e H1 H2 H3
                    | c0 vb0 e H1 H2 H3 H4 | c0 vb0 e H1 H2 H3
                    | c0 vb0 h H1 H2 H3];
    subst; try congruence; (assert (c0 = c) as -> by congruence); try done.
  match goal with
  | |- context [reattach_events rt ?t ?ns ?h] =>
      destruct (Hloop t ns h) as [Hs Hst]
  end.
  cbn. unfold calls in Hs, Hst. by rewrite Hs, Hst.
Qed.

(** ** Attaching a volume that is already there *)

Lemma check_not_mounted_conflict (mounts : list Mount) (volume_name : string)
    (mount : Mount) :
  mount ∈ mounts ->
  m_Source mount = Some volume_name ->
  check_not_mounted mounts volume_name = inl (already_attached volume_name).
Proof.
  intros Hin Hsrc. induction mounts as [|m l IH]; [by apply elem_of_nil in Hin|].
  cbn. apply elem_of_cons in Hin as [<-|Hin].
  - by rewrite bool_decide_eq_true_2.
  - rewrite (IH Hin). by case_bool_decide.
Qed.

(** C6. When a mount of the container has the volume as its source,
    [attach_volume_to_container] raises the already-attached exception
    having issued the one call that fetched the container: nothing was
    stopped, removed, created or started. *)
Theorem attach_existing_volume_rejected (rt : Runtime)
    (id volume_name mount_point mode : string) (c : Container)
    (mount : Mount) :
  rt_containers_get rt [] id = inr c ->
  mount ∈ get_or (Mounts (c_attrs c)) [] ->
  m_Source mount = Some volume_name ->
  let r := run (attach_volume_to_container id volume_name mount_point mode)
             rt in
  r = ([ok (ContainersGet id)], inl (already_attached volume_name))
  ∧ Forall (λ ev, mutates (ev_call ev) = false) r.1.
Proof.
  intros Hget Hin Hsrc r.
  assert (Hr : r = ([ok (ContainersGet id)],
                    inl (already_attached volume_name))).
  { subst r.
    unfold run, attach_volume_to_container, try_except, mbind, M_bind.
    unfold containers_get, lift, call. cbn beta zeta.
    rewrite Hget. cbn [error_of app].
    by rewrite (check_not_mounted_conflict _ _ _ Hin Hsrc). }
  rewrite Hr. split; [done|]. by repeat constructor.
Qed.

Lemma attach_existing_volume_rejected_witness :
  let rt := runtime_with web_running (inr tt) (inr tt) (inr "new")
              (λ _, inr tt) in
  let r := run (attach_volume_to_container "web-1" "data" "/mnt" "rw") rt in
  r = ([ok (ContainersGet "web-1")],
       inl (PyException "Volume data is already attached to this container"))
  ∧ Forall (λ ev, mutates (ev_call ev) = false) r.1.
Proof.
  intros rt.
  apply (attach_existing_volume_rejected rt "web-1" "data" "/mnt" "rw"
           web_running
           {| m_Type := Some "volume"; m_Source := Some "data";
              m_Destination := Some "/data"; m_Mode := Some "z" |}).
  - reflexivity.
  - vm_compute. apply list_elem_of_further, list_elem_of_here.
  - reflexivity.
Defined.

(** ** Bind strings *)

Section Split.

Variable sep : ascii.

Lemma split_not_nil (s : string) : Py.split sep s ≠ [].
Proof.
  destruct s as [|c s]; simpl; [done|].
  destruct (Ascii.eqb c sep); [done|]. by destruct (Py.split sep s).
Qed.

(** A string without the separator is its own single segment. *)
Lemma split_no_sep (s : string) :
  Py.contains sep s = false -> Py.split sep s = [s].
Proof.
  induction s as [|c s IH]; simpl; [done|].
  destruct (Ascii.eqb c sep); [done|]. intros Hs. by rewrite (IH Hs).
Qed.

(** A separator after a prefix free of it ends the first segment. *)
Lemma split_app_sep (s rest : string) :
  Py.contains sep s = false ->
  Py.split sep (s +:+ String sep rest) = s :: Py.split sep rest.
Proof.
  induction s as [|c s IH]; simpl.
  - by rewrite Ascii.eqb_refl.
  - destruct (Ascii.eqb c sep); [done|]. intros Hs. by rewrite (IH Hs).
Qed.

Lemma contains_app_sep (s rest : string) :
  Py.contains sep (s +:+ String sep rest) = true.
Proof.
  induction s as [|c s IH]; simpl.
  - by rewrite Ascii.eqb_refl.
  - by destruct (Ascii.eqb c sep).
Qed.

(** A string with a separator has two segments at least. *)
Lemma split_contains (s : string) :
  Py.contains sep s = true -> (2 <= length (Py.split sep s))%nat.
Proof.
  induction s as [|c s IH]; simpl; [done|].
  destruct (Ascii.eqb c sep).
  - intros _. pose proof (split_not_nil s).
    destruct (Py.split sep s); [done|]. cbn. lia.
  - intros Hs. specialize (IH Hs).
    destruct (Py.split sep s); cbn in *; lia.
Qed.

End Split.

Lemma append_cons (c : ascii) (s t : string) :
  String c s +:+ t = String c (s +:+ t).
Proof. reflexivity. Qed.

Lemma colon_cons (s : string) : ":" +:+ s = String colon s.
Proof. reflexivity. Qed.

Lemma append_inv_head (s x y : string) : s +:+ x = s +:+ y -> x = y.
Proof.
  induction s as [|c s IH]; [done|]. rewrite !append_cons. intros [=]. auto.
Qed.

Lemma append_empty_r (s : string) : s +:+ EmptyString = s.
Proof. induction s as [|c s IH]; [done|]. by rewrite append_cons, IH. Qed.

Lemma append_assoc (s t u : string) : (s +:+ t) +:+ u = s +:+ (t +:+ u).
Proof. induction s as [|c s IH]; [done|]. by rewrite !append_cons, IH. Qed.

Lemma bind_str_contains (source dest : string) (mode : option string) :
  Py.contains colon (bind_str source dest mode) = true.
Proof.
  unfold bind_str. destruct mode as [md|].
  - rewrite append_assoc. apply (contains_app_sep colon).
  - apply (contains_app_sep colon).
Qed.

Lemma split_bind_bind_str (source dest : string) (mode : option string) :
  Py.contains colon source = false ->
  Py.contains colon dest = false ->
  split_bind (bind_str source dest mode) = inr (source, dest).
Proof.
  intros Hs Hd. unfold split_bind, bind_str. destruct mode as [md|].
  - rewrite !append_assoc, !colon_cons.
    rewrite (split_app_sep colon source _ Hs).
    by rewrite (split_app_sep colon dest md Hd).
  - rewrite colon_cons.
    by rewrite (split_app_sep colon source dest Hs),
      (split_no_sep colon dest Hd).
Qed.

(** C8, as the code has it.  For a source and a destination free of
    [':'], the string built from a mount is read back to that source
    and that destination, whatever the mode, which is not read back at
    all; the mode segment is left out exactly when the mount has no
    ['Mode'] key. *)
Theorem bind_string_round_trip (source dest : string) (mode : option string) :
  Py.contains colon source = false ->
  Py.contains colon dest = false ->
  Py.contains colon (bind_str source dest mode) = true
  ∧ split_bind (bind_str source dest mode) = inr (source, dest)
  ∧ (bind_str source dest mode = source +:+ ":" +:+ dest ↔ mode = None).
Proof.
  intros Hs Hd. split; [apply bind_str_contains|].
  split; [by apply split_bind_bind_str|].
  unfold bind_str. destruct mode as [md|]; [|done].
  split; [|done]. intros Heq. rewrite !append_assoc in Heq.
  do 2 apply append_inv_head in Heq.
  rewrite <- (append_empty_r dest) in Heq at 2.
  apply append_inv_head in Heq. discriminate Heq.
Qed.

Lemma bind_string_round_trip_witness :
  Py.contains colon (bind_str "/srv" "/www" (Some "ro")) = true
  ∧ split_bind (bind_str "/srv" "/www" (Some "ro")) = inr ("/srv", "/www")
  ∧ (bind_str "/srv" "/www" (Some "ro") = "/srv" +:+ ":" +:+ "/www"
     ↔ Some "ro" = None).
Proof.
  apply (bind_string_round_trip "/srv" "/www" (Some "ro")); reflexivity.
Defined.

(** C8 as stated fails: the read-write mode is written out, by the
    loop over the mounts and by [attach_volume_to_container] alike, and
    the two mounts that differ in their mode only are read back the
    same, to a pair that holds no mode. *)
Lemma bind_string_mode_lost :
  bind_str "/srv" "/www" (Some "rw") = "/srv:/www:rw"
  ∧ list.last (ca_binds (create_args web_running "cache" "/mnt" "rw"))
    = Some "cache:/mnt:rw"
  ∧ bind_str "/srv" "/www" (Some "ro") ≠ bind_str "/srv" "/www" (Some "rw")
  ∧ split_bind (bind_str "/srv" "/www" (Some "ro"))
    = split_bind (bind_str "/srv" "/www" (Some "rw"))
  ∧ split_bind (bind_str "/srv" "/www" (Some "ro")) = inr ("/srv", "/www").
Proof. by vm_compute. Qed.

(** The strings written for the mounts of a container, given back as
    the requested volumes, lead to the same [volumes] and [binds]. *)
Lemma binds_round_trip (mounts : list Mount) :
  Forall colon_free mounts ->
  ∀ volumes binds volumes' binds',
    volumes_of_mounts mounts volumes binds = inr (volumes', binds') ->
    ∃ written, binds' = binds ++ written
               ∧ ∀ binds0, volumes_of_updates written volumes binds0
                           = inr (volumes', binds0 ++ written).
Proof.
  induction 1 as [|m rest [Hs Hd] _ IH]; intros volumes binds volumes' binds'.
  - cbn. intros [= <- <-]. exists []. split; [by rewrite app_nil_r|].
    intros binds0. by rewrite app_nil_r.
  - cbn [volumes_of_mounts].
    destruct (m_Type m) as [ty|]; cbn [index]; [|done].
    destruct (String.eqb ty "bind"); [|apply IH].
    destruct (m_Source m) as [source|]; cbn [index]; [|done].
    destruct (m_Destination m) as [dest|]; cbn [index]; [|done].
    cbn in Hs, Hd. intros Hrest.
    apply IH in Hrest as (written & -> & Hback).
    exists (bind_str source dest (m_Mode m) :: written).
    split; [by rewrite <- app_assoc|]. intros binds0.
    cbn [volumes_of_updates].
    rewrite bind_str_contains, (split_bind_bind_str _ _ _ Hs Hd), Hback.
    by rewrite <- app_assoc.
Qed.

(** ** Entries of [updates['volumes']] *)

Lemma split_bind_contains (vol : string) :
  Py.contains colon vol = true ->
  ∃ source dest, split_bind vol = inr (source, dest)
                 ∧ Py.split colon vol !! 1%nat = Some dest.
Proof.
  intros Hc. apply split_contains in Hc. unfold split_bind.
  destruct (Py.split colon vol) as [|source [|dest rest]];
    cbn in Hc; try lia.
  by exists source, dest.
Qed.

(** The loop over the requested volumes never raises: the [ValueError]
    of the unpacking cannot occur behind the test for [':']. *)
Lemma volumes_of_updates_total (vols : list string)
    (volumes : gmap string unit) (binds : list string) :
  ∃ r, volumes_of_updates vols volumes binds = inr r.
Proof.
  revert volumes binds. induction vols as [|vol rest IH]; intros volumes binds.
  - by eexists.
  - cbn [volumes_of_updates].
    destruct (Py.contains colon vol) eqn:Hc; [|apply IH].
    destruct (split_bind_contains vol Hc) as (source & dest & -> & _).
    apply IH.
Qed.

(** C9, as the code has it.  An entry with fewer than two segments is
    passed over: the loop goes on with the dict and the list unchanged,
    and no exception is raised for it. *)
Theorem short_bind_string_skipped (vol : string) (rest : list string)
    (volumes : gmap string unit) (binds : list string) :
  (length (Py.split colon vol) < 2)%nat ->
  volumes_of_updates (vol :: rest) volumes binds
  = volumes_of_updates rest volumes binds
  ∧ ∃ r, volumes_of_updates (vol :: rest) volumes binds = inr r.
Proof.
  intros Hlen. split; [|apply volumes_of_updates_total].
  cbn [volumes_of_updates].
  destruct (Py.contains colon vol) eqn:Hc; [|done].
  apply split_contains in Hc. lia.
Qed.

Lemma short_bind_string_skipped_witness :
  volumes_of_updates ["data"; "/srv:/www"] ∅ []
  = volumes_of_updates ["/srv:/www"] ∅ []
  ∧ ∃ r, volumes_of_updates ["data"; "/srv:/www"] ∅ [] = inr r.
Proof.
  apply (short_bind_string_skipped "data" ["/srv:/www"] ∅ []).
  vm_compute. lia.
Defined.

(** C9 as stated fails: the request whose one volume is [data], a
    single segment, is carried out and reported as a success, the new
    container being created without any volume. *)
Lemma short_bind_string_not_rejected :
  let rt := runtime_with web_running (inr tt) (inr tt) (inr "new")
              (λ _, inr tt) in
  let r := run (update_container "web-1" (only_volumes ["data"])) rt in
  Py.split colon "data" = ["data"]
  ∧ handle_volumes web_attrs (only_volumes ["data"]) = inr (∅, [])
  ∧ r.2 = inr (updated "web-1")
  ∧ calls r.1 !! 3%nat
    = Some (ContainersRun (run_args web_running (only_volumes ["data"]) ∅))
  ∧ ra_volumes (run_args web_running (only_volumes ["data"]) ∅) = None.
Proof. by vm_compute. Qed.

(** ** The configuration of the new container *)







(** ** Counting containers by status *)

Lemma initial_status_counts_dom :
  dom initial_status_counts = list_to_set status_keys.
Proof.
  unfold initial_status_counts, status_keys.
  rewrite !dom_insert_L, dom_empty_L. cbn.
  apply set_eq. intros k. rewrite !elem_of_union, !elem_of_singleton.
  rewrite elem_of_empty. tauto.
Qed.

Lemma status_key_cases (k : string) :
  k ∈ status_keys ->
  k = "running" ∨ k = "exited" ∨ k = "stopped" ∨ k = "created"
  ∨ k = "paused" ∨ k = "other".
Proof.
  unfold status_keys. rewrite !elem_of_cons, elem_of_nil. tauto.
Qed.

(** Adding one to the counter of a key adds one to the sum. *)
Lemma bucket_sum_incr (k : string) (m : gmap string nat) :
  k ∈ status_keys ->
  bucket_sum (<[k := m !!! k + 1]> m) = S (bucket_sum m).
Proof.
  intros Hk. apply status_key_cases in Hk.
  unfold bucket_sum.
  destruct Hk as [->|[->|[->|[->|[->| ->]]]]];
    rewrite lookup_total_insert_eq, !lookup_total_insert_ne by done; lia.
Qed.

(** One step of the count: exactly one counter goes up, by one, and the
    keys stay the six of line 28. *)
Lemma count_status_step (status : string) (m : gmap string nat) :
  dom m = list_to_set status_keys ->
  ∃ k, k ∈ status_keys
       ∧ count_status status m = <[k := m !!! k + 1]> m
       ∧ (status ∈ status_keys -> k = status)
       ∧ (status ∉ status_keys -> k = "other")
       ∧ dom (count_status status m) = list_to_set status_keys.
Proof.
  intros Hdom. unfold count_status.
  assert (Hkey : ∀ k, k ∈ status_keys ->
            dom (<[k := m !!! k + 1]> m) = list_to_set status_keys).
  { intros k Hk. rewrite dom_insert_L, Hdom.
    apply (elem_of_list_to_set (C := gset string)) in Hk.
    apply set_eq. intros j. rewrite elem_of_union, elem_of_singleton.
    split; [intros [->|]; done | auto]. }
  destruct (m !! status) as [n|] eqn:Hn.
  - assert (Hin : status ∈ status_keys).
    { apply (elem_of_list_to_set (C := gset string)). rewrite <- Hdom.
      apply elem_of_dom. by eexists. }
    exists status. rewrite (lookup_total_correct _ _ _ Hn).
    split; [done|]. split; [done|]. split; [done|]. split; [done|].
    rewrite <- (lookup_total_correct _ _ _ Hn). by apply Hkey.
  - assert (Hout : status ∉ status_keys).
    { intros Hin. apply (elem_of_list_to_set (C := gset string)) in Hin.
      rewrite <- Hdom in Hin. apply elem_of_dom in Hin as [n Hn'].
      congruence. }
    assert (Hother : "other" ∈ status_keys).
    { unfold status_keys. rewrite !elem_of_cons. tauto. }
    exists "other". split; [done|]. split; [done|]. split; [done|].
    split; [done|]. by apply Hkey.
Qed.

Lemma tally_snoc (containers : list ListedContainer) (c : ListedContainer) :
  tally (containers ++ [c]) = tally_step (tally containers) c.
Proof. unfold tally. by rewrite foldl_app. Qed.

(** The invariant of the loop: the keys are the six, and the counters
    add up to the number of containers seen. *)
Lemma tally_counts (containers : list ListedContainer) :
  dom (status_counts (tally containers)) = list_to_set status_keys
  ∧ bucket_sum (status_counts (tally containers)) = length containers.
Proof.
  induction containers as [|c containers [IHdom IHsum]] using rev_ind.
  - split; [apply initial_status_counts_dom | done].
  - rewrite tally_snoc, length_app. cbn [tally_step status_counts].
    destruct (count_status_step (Py.lower (lc_status c)) _ IHdom)
      as (k & Hk & -> & _ & _ & Hdom).
    split; [done|]. rewrite (bucket_sum_incr k _ Hk), IHsum. cbn. lia.
Qed.

(** C10. [containers_total] is the sum of the five reported counters
    and of the counter kept under ['other']; and each container adds
    one to exactly one counter: that of its lower-cased status when it
    is one of the six keys, that of ['other'] when it is not. *)
Theorem containers_total_is_sum_of_buckets (containers : list ListedContainer) :
  let info := get_system_info containers in
  containers_total info
  = containers_running info + containers_stopped info
    + containers_exited info + containers_created info
    + containers_paused info + status_counts (tally containers) !!! "other"
  ∧ ∀ c, ∃ k,
      let before := status_counts (tally containers) in
      k ∈ status_keys
      ∧ status_counts (tally (containers ++ [c]))
        = <[k := before !!! k + 1]> before
      ∧ (Py.lower (lc_status c) ∈ status_keys -> k = Py.lower (lc_status c))
      ∧ (Py.lower (lc_status c) ∉ status_keys -> k = "other").
Proof.
  destruct (tally_counts containers) as [Hdom Hsum]. split.
  - cbn. by rewrite <- Hsum.
  - intros c. rewrite tally_snoc. cbn [tally_step status_counts].
    destruct (count_status_step (Py.lower (lc_status c)) _ Hdom)
      as (k & Hk & Heq & Hin & Hout & _).
    by exists k.
Qed.

(** ** CPU percentage *)

(** With one running container in the list, the CPU total is what the
    sampling block adds for it to the initial 0. *)
Lemma total_cpu_one_running (stats : Stats) :
  total_cpu_percent
    (get_system_info [{| lc_status := "running"; lc_stats := inr stats |}])
  = (add_usage stats (Q2Qc 0) 0).1.1.
Proof. reflexivity. Qed.

(** C7. For one running container with the two samples [prev] and
    [cur], the CPU total of the summary is the quotient of the two
    deltas times the CPU count, [len(percpu_usage)] of [cur] and 1 when
    that key is missing, times 100 when the system delta is positive,
    and 0 otherwise; the samples 1000/100000 and 1500/100500 on two
    CPUs give 200. *)
Theorem cpu_percent_of_sample_pair
    (cur_total pre_total cur_system pre_system : Z)
    (percpu : option (list Z)) (mem : option (option Z)) :
  let stats :=
    sample_pair cur_total pre_total cur_system pre_system percpu mem in
  let cpu_delta := (cur_total - pre_total)%Z in
  let system_delta := (cur_system - pre_system)%Z in
  total_cpu_percent
    (get_system_info [{| lc_status := "running"; lc_stats := inr stats |}])
  = (if (0 <? system_delta)%Z then
       (Qc_of_Z cpu_delta / Qc_of_Z system_delta
        * Qc_of_Z (Z.of_nat (length (get_or percpu [1%Z]))) * Qc_of_Z 100)%Qc
     else Q2Qc 0)
  ∧ total_cpu_percent
      (get_system_info
         [{| lc_status := "running";
             lc_stats := inr (sample_pair 1500 1000 100500 100000
                                (Some [750; 750]%Z) mem) |}])
    = Qc_of_Z 200.
Proof.
  split.
  - rewrite total_cpu_one_running. unfold add_usage, sample_pair, index.
    cbn [cpu_total_usage precpu_total_usage cpu_system_usage
         precpu_system_usage memory_stats].
    unfold cpu_percent, cpu_count. cbn [percpu_usage].
    destruct (0 <? cur_system - pre_system)%Z; destruct mem; cbn [fst];
      try done; by rewrite Qcplus_0_l.
  - rewrite total_cpu_one_running. destruct mem; by apply Qc_is_canon.
Qed.

(** * Further properties *)

(** ** The summary, container by container *)

Lemma count_status_bucket (status : string) (m : gmap string nat) :
  dom m = list_to_set status_keys ->
  count_status status m
  = <[bucket_of status := m !!! bucket_of status + 1]> m.
Proof.
  intros Hdom.
  destruct (count_status_step status m Hdom) as (k & _ & -> & Hin & Hout & _).
  unfold bucket_of. case_bool_decide; [by rewrite (Hin H) | by rewrite (Hout H)].
Qed.

Lemma initial_status_counts_lookup (k : string) :
  initial_status_counts !!! k = 0.
Proof.
  unfold initial_status_counts. rewrite lookup_total_alt.
  repeat (rewrite lookup_insert; case_decide; [done|]).
  by rewrite lookup_empty.
Qed.

(** Every counter is the number of containers counted under its key. *)
Lemma tally_lookup (containers : list ListedContainer) (k : string) :
  status_counts (tally containers) !!! k
  = length (filter (λ c, bucket_of (Py.lower (lc_status c)) = k) containers).
Proof.
  induction containers as [|c containers IH] using rev_ind.
  - apply initial_status_counts_lookup.
  - rewrite tally_snoc, list.filter_app, length_app.
    cbn [tally_step status_counts].
    rewrite (count_status_bucket _ _ (proj1 (tally_counts containers))).
    rewrite list.filter_cons, list.filter_nil.
    destruct (decide (bucket_of (Py.lower (lc_status c)) = k)) as [->|Hne].
    + rewrite lookup_total_insert_eq, IH. cbn. lia.
    + rewrite lookup_total_insert_ne, IH by done. cbn. lia.
Qed.

Lemma bucket_of_key (status k : string) :
  k ∈ status_keys -> k ≠ "other" -> bucket_of status = k ↔ status = k.
Proof.
  intros Hk Hne. unfold bucket_of. case_bool_decide as Hin; [done|].
  split; [congruence|]. intros ->. done.
Qed.

(** X1. Each reported counter is the number of listed containers whose
    lower-cased status is the counter's name. *)
Theorem status_counters_count (containers : list ListedContainer) :
  let info := get_system_info containers in
  let with_status k :=
    length (filter (λ c, Py.lower (lc_status c) = k) containers) in
  containers_running info = with_status "running"
  ∧ containers_stopped info = with_status "stopped"
  ∧ containers_exited info = with_status "exited"
  ∧ containers_created info = with_status "created"
  ∧ containers_paused info = with_status "paused".
Proof.
  assert (Hcount : ∀ k, k ∈ status_keys -> k ≠ "other" ->
            status_counts (tally containers) !!! k
            = length (filter (λ c, Py.lower (lc_status c) = k) containers)).
  { intros k Hk Hne. rewrite tally_lookup. f_equal.
    apply list_filter_iff. intros c. by apply bucket_of_key. }
  cbn. unfold status_keys in Hcount.
  repeat split; apply Hcount; try done; rewrite !elem_of_cons; tauto.
Qed.

Lemma tally_totals_snoc (containers : list ListedContainer)
    (c : ListedContainer) :
  (total_cpu (tally (containers ++ [c])),
   total_memory (tally (containers ++ [c])))
  = sample_container c (Py.lower (lc_status c))
      (total_cpu (tally containers)) (total_memory (tally containers)).
Proof.
  rewrite tally_snoc. cbn [tally_step total_cpu total_memory].
  by destruct (sample_container _ _ _ _).
Qed.

(** A container that is not sampled leaves both totals as they are. *)
Lemma sample_container_unsampled (c : ListedContainer) (tc : Qc) (tm : Z) :
  sampled c = false ->
  sample_container c (Py.lower (lc_status c)) tc tm = (tc, tm).
Proof.
  unfold sampled, sample_container.
  destruct (String.eqb _ "running"); [|done].
  by destruct (lc_stats c).
Qed.

(** X2. Containers that are not running, and running containers whose
    statistics call raised, add nothing: both totals are those of the
    list without them. *)
Theorem unsampled_containers_ignored (containers : list ListedContainer) :
  total_cpu_percent (get_system_info (List.filter sampled containers))
  = total_cpu_percent (get_system_info containers)
  ∧ total_memory_bytes (get_system_info (List.filter sampled containers))
    = total_memory_bytes (get_system_info containers).
Proof.
  cbn [get_system_info total_cpu_percent total_memory_bytes].
  assert (H : (total_cpu (tally (List.filter sampled containers)),
               total_memory (tally (List.filter sampled containers)))
              = (total_cpu (tally containers), total_memory (tally containers))).
  { induction containers as [|c containers IH] using rev_ind; [done|].
    rewrite List.filter_app. cbn [List.filter].
    rewrite tally_totals_snoc. destruct (sampled c) eqn:Hs.
    - rewrite tally_totals_snoc. by injection IH as -> ->.
    - by rewrite app_nil_r, sample_container_unsampled. }
  by injection H as -> ->.
Qed.

Lemma sample_container_memory (c : ListedContainer) (status : string)
    (tc : Qc) (tm : Z) :
  (sample_container c status tc tm).2
  = (tm + (sample_container c status (Q2Qc 0) 0).2)%Z.
Proof.
  unfold sample_container. destruct (String.eqb status "running"); cbn; [|lia].
  destruct (lc_stats c) as [e|stats]; cbn; [lia|].
  unfold add_usage, index.
  destruct (cpu_total_usage stats); cbn; [|lia].
  destruct (precpu_total_usage stats); cbn; [|lia].
  destruct (cpu_system_usage stats); cbn; [|lia].
  destruct (precpu_system_usage stats); cbn; [|lia].
  destruct (memory_stats stats); cbn; lia.
Qed.

Lemma sumZ_snoc (l : list Z) (x : Z) : sumZ (l ++ [x]) = (sumZ l + x)%Z.
Proof. unfold sumZ. induction l as [|y l IH]; cbn; lia. Qed.

Lemma sumZ_permutation (l l' : list Z) : l ≡ₚ l' -> sumZ l = sumZ l'.
Proof. unfold sumZ. induction 1; cbn; lia. Qed.

(** The memory total is the sum of what each container adds. *)
Lemma total_memory_sum (containers : list ListedContainer) :
  total_memory (tally containers) = sumZ (memory_of <$> containers).
Proof.
  induction containers as [|c containers IH] using rev_ind; [done|].
  pose proof (tally_totals_snoc containers c) as Hsnoc.
  apply (f_equal snd) in Hsnoc. cbn [snd] in Hsnoc.
  rewrite Hsnoc, sample_container_memory, fmap_app.
  change (memory_of <$> [c]) with [memory_of c].
  by rewrite sumZ_snoc, IH.
Qed.

(** X3. The counters, the number of containers and the memory total do
    not depend on the order in which the runtime lists the containers. *)
Theorem summary_order_independent (l l' : list ListedContainer) :
  l ≡ₚ l' ->
  let a := get_system_info l in
  let b := get_system_info l' in
  containers_running a = containers_running b
  ∧ containers_stopped a = containers_stopped b
  ∧ containers_exited a = containers_exited b
  ∧ containers_created a = containers_created b
  ∧ containers_paused a = containers_paused b
  ∧ containers_total a = containers_total b
  ∧ total_memory_bytes a = total_memory_bytes b.
Proof.
  intros Hperm. cbn. rewrite !tally_lookup, !total_memory_sum.
  repeat split; try by rewrite Hperm.
  apply sumZ_permutation. by rewrite Hperm.
Qed.

Lemma summary_order_independent_witness :
  let c1 := {| lc_status := "running"; lc_stats := inr (stats_of_usage 5) |} in
  let c2 := {| lc_status := "Exited"; lc_stats := inl (APIError "gone") |} in
  let a := get_system_info [c1; c2] in
  let b := get_system_info [c2; c1] in
  containers_running a = containers_running b
  ∧ containers_stopped a = containers_stopped b
  ∧ containers_exited a = containers_exited b
  ∧ containers_created a = containers_created b
  ∧ containers_paused a = containers_paused b
  ∧ containers_total a = containers_total b
  ∧ total_memory_bytes a = total_memory_bytes b.
Proof.
  intros c1 c2. apply (summary_order_independent [c1; c2] [c2; c1]).
  apply perm_swap.
Defined.

(** X4. A running container whose statistics lack one of the four CPU
    counters is counted as running and adds nothing to either total:
    its memory usage is dropped with its CPU share, even when the
    statistics hold it. *)
Theorem missing_counter_drops_sample (containers : list ListedContainer)
    (c : ListedContainer) (stats : Stats) :
  Py.lower (lc_status c) = "running" ->
  lc_stats c = inr stats ->
  lacks_counter stats ->
  let before := get_system_info containers in
  let after := get_system_info (containers ++ [c]) in
  containers_running after = S (containers_running before)
  ∧ total_cpu_percent after = total_cpu_percent before
  ∧ total_memory_bytes after = total_memory_bytes before.
Proof.
  intros Hrun Hstats Hlacks. cbn. split.
  - rewrite !tally_lookup, list.filter_app, length_app.
    rewrite list.filter_cons_True, list.filter_nil by by rewrite Hrun.
    cbn. lia.
  - pose proof (tally_totals_snoc containers c) as Hsnoc.
    unfold sample_container in Hsnoc. rewrite Hrun, Hstats in Hsnoc.
    cbn in Hsnoc. unfold add_usage, index in Hsnoc.
    destruct Hlacks as [H|[H|[H|H]]]; rewrite H in Hsnoc;
      repeat match type of Hsnoc with
        | context [match ?o with Some _ => _ | None => _ end] =>
            destruct o
        end;
      cbn in Hsnoc; by injection Hsnoc as -> ->.
Qed.

Lemma missing_counter_drops_sample_witness :
  let stats := {| cpu_total_usage := Some 1500%Z;
                  precpu_total_usage := Some 1000%Z;
                  cpu_system_usage := Some 100500%Z;
                  precpu_system_usage := None;
                  percpu_usage := None;
                  memory_stats := Some (Some 4096%Z) |} in
  let c := {| lc_status := "running"; lc_stats := inr stats |} in
  let before := get_system_info [] in
  let after := get_system_info ([] ++ [c]) in
  containers_running after = S (containers_running before)
  ∧ total_cpu_percent after = total_cpu_percent before
  ∧ total_memory_bytes after = total_memory_bytes before.
Proof.
  intros stats c.
  apply (missing_counter_drops_sample [] c stats).
  - reflexivity.
  - reflexivity.
  - unfold lacks_counter. simpl. tauto.
Defined.

(** X5. The summary reads the status of a container through [lower()]
    alone: two listings that differ in the case of the statuses only
    give the same summary. *)
Theorem summary_case_insensitive (l l' : list ListedContainer) :
  Forall2 (λ c c', Py.lower (lc_status c) = Py.lower (lc_status c')
                   ∧ lc_stats c = lc_stats c') l l' ->
  get_system_info l = get_system_info l'.
Proof.
  intros Hall.
  assert (Htally : ∀ t, foldl tally_step t l = foldl tally_step t l').
  { induction Hall as [|c c' l l' [Hstatus Hstats] _ IH]; intros t; [done|].
    cbn [foldl]. rewrite <- IH. f_equal.
    unfold tally_step, sample_container. by rewrite Hstatus, Hstats. }
  unfold get_system_info, tally.
  apply Forall2_length in Hall. by rewrite Htally, Hall.
Qed.

Lemma summary_case_insensitive_witness :
  get_system_info [{| lc_status := "Running";
                      lc_stats := inr (stats_of_usage 5) |}]
  = get_system_info [{| lc_status := "RUNNING";
                        lc_stats := inr (stats_of_usage 5) |}].
Proof.
  apply summary_case_insensitive. by repeat constructor.
Defined.

(** ** Disk usage *)

Lemma class_usage_lookup (total_size count reclaimable : Z) :
  class_usage total_size count reclaimable !!! "total_size" = total_size
  ∧ class_usage total_size count reclaimable !!! "count" = count
  ∧ class_usage total_size count reclaimable !!! "reclaimable" = reclaimable.
Proof.
  unfold class_usage. split; [|split].
  - rewrite !lookup_total_insert_ne by done. apply lookup_total_insert_eq.
  - rewrite lookup_total_insert_ne by done. apply lookup_total_insert_eq.
  - apply lookup_total_insert_eq.
Qed.

Section Sums.

Context {A : Type} (f : A -> Z) (p : A -> bool).

(** A sum splits into the part that satisfies a test and the rest. *)
Lemma sumZ_filter_split (l : list A) :
  sumZ (f <$> l)
  = (sumZ (f <$> List.filter p l)
     + sumZ (f <$> List.filter (λ x, negb (p x)) l))%Z.
Proof.
  unfold sumZ. induction l as [|x l IH]; cbn; [done|].
  destruct (p x); cbn; lia.
Qed.

Lemma sumZ_nonneg (l : list A) :
  Forall (λ x, 0 ≤ f x)%Z l -> (0 ≤ sumZ (f <$> l))%Z.
Proof. unfold sumZ. induction 1; cbn; lia. Qed.

Lemma Forall_filter_bool (P : A -> Prop) (l : list A) :
  Forall P l -> Forall P (List.filter p l).
Proof. induction 1; cbn; [constructor|]. destruct (p x); auto. Qed.

End Sums.


(** X7. When no size is negative, the reclaimable size of each class
    lies between 0 and the total size, and the count is the number of
    entries. *)
Theorem df_reclaimable_bounded (df : Df) :
  df_sizes_nonneg df ->
  let r := get_system_df (inr df) in
  (0 ≤ sd_images r !!! "reclaimable" ≤ sd_images r !!! "total_size")%Z
  ∧ (0 ≤ sd_containers r !!! "reclaimable"
     ≤ sd_containers r !!! "total_size")%Z
  ∧ (0 ≤ sd_volumes r !!! "reclaimable" ≤ sd_volumes r !!! "total_size")%Z
  ∧ sd_images r !!! "count" = Z.of_nat (length (get_or (df_Images df) []))
  ∧ sd_containers r !!! "count"
    = Z.of_nat (length (get_or (df_Containers df) []))
  ∧ sd_volumes r !!! "count" = Z.of_nat (length (get_or (df_Volumes df) [])).
Proof.
  intros (Himg & Hcont & Hvol).
  cbn [get_system_df sd_images sd_containers sd_volumes sd_build_cache].
  repeat match goal with
    | |- context [class_usage ?t ?c ?r !!! "reclaimable"] =>
        destruct (class_usage_lookup t c r) as (-> & -> & ->)
    end.
  split; [|split; [|split; [|done]]].
  - rewrite (sumZ_filter_split _ image_unused (get_or (df_Images df) [])).
    pose proof (sumZ_nonneg _ _ (Forall_filter_bool image_unused _ _ Himg)).
    pose proof (sumZ_nonneg _ _
                  (Forall_filter_bool (λ x, negb (image_unused x)) _ _ Himg)).
    lia.
  - rewrite (sumZ_filter_split _ container_not_running
               (get_or (df_Containers df) [])).
    pose proof (sumZ_nonneg _ _
                  (Forall_filter_bool container_not_running _ _ Hcont)).
    pose proof (sumZ_nonneg _ _
                  (Forall_filter_bool (λ x, negb (container_not_running x))
                     _ _ Hcont)).
    lia.
  - rewrite (sumZ_filter_split _ volume_unused (get_or (df_Volumes df) [])).
    pose proof (sumZ_nonneg _ _ (Forall_filter_bool volume_unused _ _ Hvol)).
    pose proof (sumZ_nonneg _ _
                  (Forall_filter_bool (λ x, negb (volume_unused x)) _ _ Hvol)).
    lia.
Qed.

Lemma df_reclaimable_bounded_witness :
  let r := get_system_df (inr sample_df) in
  (0 ≤ sd_images r !!! "reclaimable" ≤ sd_images r !!! "total_size")%Z
  ∧ (0 ≤ sd_containers r !!! "reclaimable"
     ≤ sd_containers r !!! "total_size")%Z
  ∧ (0 ≤ sd_volumes r !!! "reclaimable" ≤ sd_volumes r !!! "total_size")%Z
  ∧ sd_images r !!! "count"
    = Z.of_nat (length (get_or (df_Images sample_df) []))
  ∧ sd_containers r !!! "count"
    = Z.of_nat (length (get_or (df_Containers sample_df) []))
  ∧ sd_volumes r !!! "count"
    = Z.of_nat (length (get_or (df_Volumes sample_df) [])).
Proof.
  apply (df_reclaimable_bounded sample_df).
  unfold df_sizes_nonneg. simpl.
  split; [|split]; repeat (apply List.Forall_cons; [by vm_compute|]);
    apply List.Forall_nil.
Defined.

(** ** Volumes created and listed *)

Lemma bind_driver_opts_lookup (name driver : string)
    (options : option (gmap string string)) (p : string) :
  p ≠ EmptyString ->
  let opts :=
    vc_driver_opts (create_volume_args name driver options (Some p)) in
  opts !! "type" = Some "none"
  ∧ opts !! "o" = Some "bind"
  ∧ opts !! "device" = Some p
  ∧ ∀ k, k ≠ "type" -> k ≠ "o" -> k ≠ "device" ->
         opts !! k = options_or_empty options !! k.
Proof.
  intros Hp. unfold create_volume_args.
  assert (Hgiven : host_path_given (Some p) = Some p) by by destruct p.
  rewrite Hgiven. cbn [vc_driver_opts].
  split; [|split; [|split]].
  - rewrite !lookup_insert_ne by done. apply lookup_insert_eq.
  - rewrite lookup_insert_ne by done. apply lookup_insert_eq.
  - apply lookup_insert_eq.
  - intros k H1 H2 H3. by rewrite !lookup_insert_ne.
Qed.



(** X9. A volume created with a non-empty host path, on a runtime that
    keeps the driver options it was given, is listed as a bind mount
    with that host path. *)
Theorem created_bind_volume_listed (name driver : string)
    (options : option (gmap string string)) (p : string) (vol : Volume) :
  p ≠ EmptyString ->
  v_Options vol
  = Some (vc_driver_opts (create_volume_args name driver options (Some p))) ->
  vi_is_bind_mount (volume_info vol) = true
  ∧ vi_host_path (volume_info vol) = p.
Proof.
  intros Hp Hopts.
  destruct (bind_driver_opts_lookup name driver options p Hp)
    as (Htype & Ho & Hdev & _).
  unfold volume_info. rewrite Hopts. cbn [get_or].
  assert (Htruthy : options_truthy
            (Some (vc_driver_opts
                     (create_volume_args name driver options (Some p))))
          = true).
  { cbn. apply negb_true_iff, bool_decide_eq_false. intros Hempty.
    rewrite Hempty, lookup_empty in Hdev. discriminate Hdev. }
  rewrite Htruthy. cbn [vi_is_bind_mount vi_host_path].
  rewrite Htype, Ho, Hdev. split; [|done].
  by rewrite !bool_decide_eq_true_2.
Qed.

Lemma created_bind_volume_listed_witness :
  let vol := {| v_name := "data";
                v_Options :=
                  Some (vc_driver_opts
                          (create_volume_args "data" "local" None (Some "/srv")));
                v_Driver := Some "local"; v_Mountpoint := None |} in
  vi_is_bind_mount (volume_info vol) = true
  ∧ vi_host_path (volume_info vol) = "/srv".
Proof.
  intros vol.
  apply (created_bind_volume_listed "data" "local" None "/srv" vol).
  - discriminate.
  - reflexivity.
Defined.

(** ** The runs of [attach_volume_to_container] *)

Lemma attach_volume_outcome (rt : Runtime)
    (id volume_name mount_point mode : string) :
  AttachOutcome rt id volume_name mount_point mode
    (run (attach_volume_to_container id volume_name mount_point mode) rt).
Proof.
  unfold run, attach_volume_to_container, try_except, mbind, M_bind.
  unfold containers_get, container_stop, container_remove, containers_create,
    container_start, lift, call. cbn beta zeta.
  destruct (rt_containers_get rt [] id) as [e|c] eqn:Hget; cbn [error_of].
  { rewrite attach_surfaced_handlers. by constructor. }
  destruct (check_not_mounted _ volume_name) as [e|[]] eqn:Hcheck.
  { rewrite attach_surfaced_handlers. by econstructor. }
  cbn [app].
  destruct (String.eqb (c_status c) "running") eqn:Hstatus.
  - destruct (rt_stop rt _ c) as [e|[]] eqn:Hstop; cbn [error_of app].
    { rewrite attach_surfaced_handlers. by econstructor. }
    destruct (rt_remove rt _ c) as [e|[]] eqn:Hrem; cbn [error_of app].
    { rewrite attach_surfaced_handlers.
      pose proof (AttachRemoveFailed rt id volume_name mount_point mode c e)
        as Hout.
      unfold stop_events in Hout. rewrite Hstatus in Hout. by apply Hout. }
    destruct (rt_create rt _ _) as [e|h] eqn:Hcreate; cbn [error_of app].
    { rewrite attach_surfaced_handlers.
      pose proof (AttachCreateFailed rt id volume_name mount_point mode c e)
        as Hout.
      unfold stop_events in Hout. rewrite Hstatus in Hout. by apply Hout. }
    destruct (rt_start rt _ h) as [e|[]] eqn:Hstart; cbn [error_of app].
    { rewrite attach_surfaced_handlers. by eapply AttachStartFailed. }
    pose proof (Attached rt id volume_name mount_point mode c h) as Hout.
    unfold stop_events in Hout. rewrite Hstatus in Hout. by apply Hout.
  - cbn. destruct (rt_remove rt _ c) as [e|[]] eqn:Hrem; cbn [error_of app].
    { rewrite attach_surfaced_handlers.
      pose proof (AttachRemoveFailed rt id volume_name mount_point mode c e)
        as Hout.
      unfold stop_events in Hout. rewrite Hstatus in Hout. by apply Hout. }
    destruct (rt_create rt _ _) as [e|h] eqn:Hcreate; cbn [error_of app].
    { rewrite attach_surfaced_handlers.
      pose proof (AttachCreateFailed rt id volume_name mount_point mode c e)
        as Hout.
      unfold stop_events in Hout. rewrite Hstatus in Hout. by apply Hout. }
    pose proof (Attached rt id volume_name mount_point mode c h) as Hout.
    unfold stop_events in Hout. rewrite Hstatus in Hout. by apply Hout.
Qed.

(** ** Errors of the configuration, errors of the runtime *)

(** The loop over the mounts raises [KeyError] and nothing else, and it
    does raise when a mount has no ['Type']. *)
Lemma volumes_of_mounts_untyped (mounts : list Mount) (m : Mount)
    (volumes : gmap string unit) (binds : list string) :
  m ∈ mounts ->
  m_Type m = None ->
  ∃ key, volumes_of_mounts mounts volumes binds = inl (KeyError key).
Proof.
  intros Hin Hty. revert volumes binds.
  induction mounts as [|m' rest IH]; intros volumes binds;
    [by apply elem_of_nil in Hin|].
  cbn [volumes_of_mounts]. unfold index.
  destruct (m_Type m') as [ty|] eqn:Hty'; [|by eexists].
  apply elem_of_cons in Hin as [->|Hin]; [congruence|].
  destruct (String.eqb ty "bind"); [|by apply IH].
  destruct (m_Source m'); [|by eexists].
  destruct (m_Destination m'); [|by eexists].
  by apply IH.
Qed.

(** X10. When the request sets no volumes and a mount of the container
    has no ['Type'] key, [update_container] raises a [KeyError], which
    no [except] clause wraps, after the one call that fetched the
    container: nothing has been stopped or removed. *)
Theorem malformed_mount_aborts_before_stop (rt : Runtime) (id : string)
    (updates : ContainerUpdate) (c : Container) (m : Mount) :
  rt_containers_get rt [] id = inr c ->
  u_volumes updates = None ->
  m ∈ get_or (Mounts (c_attrs c)) [] ->
  m_Type m = None ->
  ∃ key, run (update_container id updates) rt
         = ([ok (ContainersGet id)], inl (KeyError key)).
Proof.
  intros Hget Hvols Hin Hty.
  destruct (volumes_of_mounts_untyped _ m ∅ [] Hin Hty) as [key Hkey].
  exists key.
  pose proof (update_container_outcome rt id updates) as Hout.
  assert (Hvol : handle_volumes (c_attrs c) updates = inl (KeyError key)).
  { unfold handle_volumes. by rewrite Hvols. }
  inversion Hout as [e H1 | c0 e H1 H2 | c0 vb0 e H1 H2 H3
                    | c0 vb0 e H1 H2 H3 H4 | c0 vb0 e H1 H2 H3 H4 H5
                    | c0 vb0 h H1 H2 H3 H4 H5];
    try congruence; (assert (c0 = c) as -> by congruence); try congruence.
  assert (e = KeyError key) as -> by congruence. done.
Qed.

Lemma malformed_mount_aborts_before_stop_witness :
  let broken := {| m_Type := None; m_Source := Some "/srv";
                   m_Destination := Some "/www"; m_Mode := None |} in
  let c := {| c_name := "web-1"; c_status := "running";
              c_attrs := {| Config_Image := "nginx:1.25"; Config_Env := None;
                            Mounts := Some [broken]; Networks := [];
                            HostConfig_PortBindings := None;
                            HostConfig_Binds := None |} |} in
  let rt := runtime_with c (inr tt) (inr tt) (inr "new") (λ _, inr tt) in
  ∃ key, run (update_container "web-1" no_update) rt
         = ([ok (ContainersGet "web-1")], inl (KeyError key)).
Proof.
  intros broken c rt.
  apply (malformed_mount_aborts_before_stop rt "web-1" no_update c broken).
  - reflexivity.
  - reflexivity.
  - vm_compute. apply list_elem_of_here.
  - reflexivity.
Defined.

Lemma surfaced_not_docker (id : string) (e : exn) :
  docker_error (surfaced id e) = false.
Proof. by destruct e. Qed.

Lemma attach_surfaced_not_docker (e : exn) :
  docker_error (attach_surfaced e) = false.
Proof. by destruct e. Qed.

(** X11. No exception of the Docker client leaves [update_container] or
    [attach_volume_to_container]: whatever the runtime raises at
    whatever step, the caller never sees a [NotFound] or an [APIError]. *)
Theorem docker_errors_never_escape (rt : Runtime)
    (id volume_name mount_point mode : string) (updates : ContainerUpdate)
    (e : exn) :
  ((run (update_container id updates) rt).2 = inl e ->
   docker_error e = false)
  ∧ ((run (attach_volume_to_container id volume_name mount_point mode) rt).2
     = inl e ->
     docker_error e = false).
Proof.
  split.
  - pose proof (update_container_outcome rt id updates) as Hout.
    inversion Hout; cbn [snd]; intros [= <-]; apply surfaced_not_docker.
  - pose proof (attach_volume_outcome rt id volume_name mount_point mode)
      as Hout.
    inversion Hout; cbn [snd]; intros [= <-]; apply attach_surfaced_not_docker.
Qed.

(** ** More on attaching a volume *)

Lemma stop_events_cases (c : Container) :
  stop_events c = [] ∨ stop_events c = [ok (ContainerStop (c_name c))].
Proof. unfold stop_events. destruct (String.eqb _ _); auto. Qed.

(** X12. In [attach_volume_to_container] the first call that raises is
    the last call issued, and its exception, wrapped, is the result:
    after a failed stop or removal nothing is created, after a failed
    creation nothing is started. *)
Theorem attach_first_failure_is_terminal (rt : Runtime)
    (id volume_name mount_point mode : string) (tr : Trace)
    (res : exn + Payload) (c : Call) (e : exn) :
  run (attach_volume_to_container id volume_name mount_point mode) rt
  = (tr, res) ->
  failed c e ∈ tr ->
  list.last tr = Some (failed c e) ∧ res = inl (attach_surfaced e).
Proof.
  intros Hrun Hin.
  pose proof (attach_volume_outcome rt id volume_name mount_point mode)
    as Hout.
  rewrite Hrun in Hout.
  inversion Hout as [e0 H1 | c0 e0 H1 H2 | c0 e0 H1 H2 H3 H4
                    | c0 e0 H1 H2 H3 | c0 e0 H1 H2 H3
                    | c0 h e0 H1 H2 H3 H4 | c0 h H1 H2 H3];
    subst; try (destruct (stop_events_cases c0) as [Hs|Hs]; rewrite Hs in * );
    try (destruct (String.eqb (c_status c0) "running"));
    cbn in Hin; in_trace; by simplify_eq.
Qed.

Lemma attach_first_failure_is_terminal_witness :
  let rt := runtime_with web_running (inr tt) (inr tt)
              (inl (APIError "no space")) (λ _, inr tt) in
  let r := run (attach_volume_to_container "web-1" "cache" "/mnt" "rw") rt in
  let args := create_args web_running "cache" "/mnt" "rw" in
  list.last r.1 = Some (failed (ContainersCreate args) (APIError "no space"))
  ∧ r.2 = inl (attach_surfaced (APIError "no space")).
Proof.
  intros rt r args.
  apply (attach_first_failure_is_terminal rt "web-1" "cache" "/mnt" "rw"
           r.1 r.2 (ContainersCreate args) (APIError "no space")).
  - reflexivity.
  - vm_compute. do 3 apply list_elem_of_further. apply list_elem_of_here.
Defined.

(** X13. The container that [attach_volume_to_container] creates takes
    the image, the environment, the port bindings and the name of the
    old one, declares the new mount point alone, and binds what the old
    one bound followed by the new volume; and no run ever fetches or
    connects a network. *)
Theorem attach_recreation_config (rt : Runtime)
    (id volume_name mount_point mode : string) (c : Container) (tr : Trace)
    (res : exn + Payload) (args : CreateArgs) :
  rt_containers_get rt [] id = inr c ->
  run (attach_volume_to_container id volume_name mount_point mode) rt
  = (tr, res) ->
  ContainersCreate args ∈ calls tr ->
  ca_image args = Config_Image (c_attrs c)
  ∧ ca_name args = c_name c
  ∧ ca_environment args = get_or (Config_Env (c_attrs c)) []
  ∧ ca_ports args = get_or (HostConfig_PortBindings (c_attrs c)) []
  ∧ dom (ca_volumes args) = {[ mount_point ]}
  ∧ ca_binds args
    = get_or (HostConfig_Binds (c_attrs c)) []
      ++ [volume_name +:+ ":" +:+ mount_point +:+ ":" +:+ mode]
  ∧ Forall (λ ev, reattaches (ev_call ev) = false) tr.
Proof.
  intros Hget Hrun Hin.
  pose proof (attach_volume_outcome rt id volume_name mount_point mode)
    as Hout.
  rewrite Hrun in Hout.
  assert (Hargs : args = create_args c volume_name mount_point mode
                  ∧ Forall (λ ev, reattaches (ev_call ev) = false) tr).
  { inversion Hout as [e0 H1 | c0 e0 H1 H2 | c0 e0 H1 H2 H3 H4
                      | c0 e0 H1 H2 H3 | c0 e0 H1 H2 H3
                      | c0 h e0 H1 H2 H3 H4 | c0 h H1 H2 H3];
      subst;
      try (destruct (stop_events_cases c0) as [Hs|Hs]; rewrite Hs in * );
      try (destruct (String.eqb (c_status c0) "running"));
      cbn in Hin; in_trace; simplify_eq;
      (assert (c0 = c) as -> by congruence);
      (split; [done|]); by repeat constructor. }
  destruct Hargs as [-> Hnone]. repeat (split; [done|]).
  split; [apply dom_singleton_L|]. by split.
Qed.

Lemma attach_recreation_config_witness :
  let rt := runtime_with web_running (inr tt) (inr tt) (inr "new")
              (λ _, inr tt) in
  let r := run (attach_volume_to_container "web-1" "cache" "/mnt" "rw") rt in
  let args := create_args web_running "cache" "/mnt" "rw" in
  ca_image args = "nginx:1.25"
  ∧ ca_name args = "web-1"
  ∧ ca_environment args = ["A=1"]
  ∧ ca_ports args = [("80/tcp", ["8080"])]
  ∧ dom (ca_volumes args) = {[ "/mnt" ]}
  ∧ ca_binds args
    = ["/srv:/www:ro"] ++ ["cache" +:+ ":" +:+ "/mnt" +:+ ":" +:+ "rw"]
  ∧ Forall (λ ev, reattaches (ev_call ev) = false) r.1.
Proof.
  intros rt r args.
  apply (attach_recreation_config rt "web-1" "cache" "/mnt" "rw" web_running
           r.1 r.2 args).
  - reflexivity.
  - reflexivity.
  - vm_compute. do 3 apply list_elem_of_further. apply list_elem_of_here.
Defined.

(** The check passes exactly when no mount has the volume as its
    source. *)
Lemma check_not_mounted_free (mounts : list Mount) (volume_name : string) :
  (∀ m, m ∈ mounts -> m_Source m ≠ Some volume_name) ->
  check_not_mounted mounts volume_name = inr tt.
Proof.
  induction mounts as [|m rest IH]; intros Hfree; cbn; [done|].
  rewrite bool_decide_eq_false_2 by (apply Hfree, list_elem_of_here).
  apply IH. intros m' Hin. apply Hfree. by apply list_elem_of_further.
Qed.

(** X14. When no mount of the container has the volume as its source, a
    mount without a ['Source'] key included, the conflict check lets the
    request through and the destructive part begins: the second call is
    the stop of a running container, the removal of any other. *)
Theorem attach_without_conflict_proceeds (rt : Runtime)
    (id volume_name mount_point mode : string) (c : Container) :
  rt_containers_get rt [] id = inr c ->
  (∀ m, m ∈ get_or (Mounts (c_attrs c)) [] ->
        m_Source m ≠ Some volume_name) ->
  calls (run (attach_volume_to_container id volume_name mount_point mode)
           rt).1 !! 1%nat
  = Some (if String.eqb (c_status c) "running"
          then ContainerStop (c_name c) else ContainerRemove (c_name c)).
Proof.
  intros Hget Hfree. apply check_not_mounted_free in Hfree.
  pose proof (attach_volume_outcome rt id volume_name mount_point mode)
    as Hout.
  inversion Hout as [e0 H1 | c0 e0 H1 H2 | c0 e0 H1 H2 H3 H4
                    | c0 e0 H1 H2 H3 | c0 e0 H1 H2 H3
                    | c0 h e0 H1 H2 H3 H4 | c0 h H1 H2 H3];
    try congruence; (assert (c0 = c) as -> by congruence); try congruence;
    unfold stop_events in *;
    destruct (String.eqb (c_status c) "running"); done.
Qed.

Lemma attach_without_conflict_proceeds_witness :
  let rt := runtime_with web_exited (inr tt) (inr tt) (inr "new")
              (λ _, inr tt) in
  calls (run (attach_volume_to_container "web-1" "cache" "/mnt" "rw")
           rt).1 !! 1%nat
  = Some (if String.eqb (c_status web_exited) "running"
          then ContainerStop (c_name web_exited)
          else ContainerRemove (c_name web_exited)).
Proof.
  intros rt.
  apply (attach_without_conflict_proceeds rt "web-1" "cache" "/mnt" "rw"
           web_exited).
  - reflexivity.
  - intros m Hin. vm_compute in Hin.
    apply elem_of_cons in Hin as [->|Hin]; [discriminate|].
    apply elem_of_cons in Hin as [->|Hin]; [discriminate|].
    by apply elem_of_nil in Hin.
Defined.

(** ** Which container is connected *)

(** X15. Every [connect] that [update_container] issues connects the
    container that [run] has just returned, to a network that the
    runtime handed out for a name of the target list: the old container
    is never connected, and nothing is connected before the creation
    succeeded. *)
Theorem only_new_container_connected (rt : Runtime) (id : string)
    (updates : ContainerUpdate) (tr : Trace) (res : exn + Payload)
    (net container : string) :
  run (update_container id updates) rt = (tr, res) ->
  NetworkConnect net container ∈ calls tr ->
  ∃ c args tr' n,
    rt_containers_get rt [] id = inr c
    ∧ rt_run rt [ok (ContainersGet id); ok (ContainerStop (c_name c));
                 ok (ContainerRemove (c_name c))] args = inr container
    ∧ n ∈ drop 1 (target_networks c updates)
    ∧ rt_networks_get rt tr' n = inr net.
Proof.
  intros Hrun Hin.
  pose proof (update_container_outcome rt id updates) as Hout.
  rewrite Hrun in Hout.
  inversion Hout as [e H1 | c0 e H1 H2 | c0 vb0 e H1 H2 H3
                    | c0 vb0 e H1 H2 H3 H4 | c0 vb0 e H1 H2 H3 H4 H5
                    | c0 vb0 h H1 H2 H3 H4 H5];
    subst; cbn in Hin; in_trace; simplify_eq.
  apply reattach_events_connect in Hin as (-> & tr' & n & Hn & Hget).
  by exists c0, (run_args c0 updates vb0.1), tr', n.
Qed.

Lemma only_new_container_connected_witness :
  let rt := runtime_with web_running (inr tt) (inr tt) (inr "new")
              (λ _, inr tt) in
  ∃ c args tr' n,
    rt_containers_get rt [] "web-1" = inr c
    ∧ rt_run rt [ok (ContainersGet "web-1"); ok (ContainerStop (c_name c));
                 ok (ContainerRemove (c_name c))] args = inr "new"
    ∧ n ∈ drop 1 (target_networks c no_update)
    ∧ rt_networks_get rt tr' n = inr "backend".
Proof.
  intros rt.
  apply (only_new_container_connected rt "web-1" no_update
           (run (update_container "web-1" no_update) rt).1
           (run (update_container "web-1" no_update) rt).2
           "backend" "new").
  - reflexivity.
  - vm_compute. do 5 apply list_elem_of_further. apply list_elem_of_here.
Defined.

(** ** Bind strings with a colon in a name *)

Section FirstSegment.

Variable sep : ascii.

(** The first segment never holds the separator. *)
Lemma first_segment_sep_free (s w : string) (ws : list string) :
  Py.split sep s = w :: ws -> Py.contains sep w = false.
Proof.
  revert w ws. induction s as [|c s IH]; intros w ws; simpl.
  - by intros [= <- _].
  - destruct (Ascii.eqb c sep) eqn:Hc; [by intros [= <- _]|].
    destruct (Py.split sep s) as [|w' ws'] eqn:Hs.
    + intros [= <- _]. simpl. by rewrite Hc.
    + intros [= <- _]. simpl. rewrite Hc. by eapply IH.
Qed.

End FirstSegment.

(** X16. The string written for a mount is read back to its source and
    destination exactly when neither holds a [':']: a colon in the
    source, a drive letter say, moves the destination. *)
Theorem bind_string_round_trip_iff (source dest : string)
    (mode : option string) :
  split_bind (bind_str source dest mode) = inr (source, dest)
  ↔ Py.contains colon source = false ∧ Py.contains colon dest = false.
Proof.
  split; [|intros [Hs Hd]; by apply split_bind_bind_str].
  assert (Hform : ∃ tail, bind_str source dest mode
                          = source +:+ String colon (dest +:+ tail)
                          ∧ (tail = EmptyString
                             ∨ ∃ md, tail = String colon md)).
  { unfold bind_str. destruct mode as [md|].
    - exists (String colon md). rewrite !append_assoc, !colon_cons. eauto.
    - exists EmptyString. rewrite colon_cons, append_empty_r. eauto. }
  destruct Hform as (tail & -> & Htail). unfold split_bind. intros Hsplit.
  destruct (Py.split colon (source +:+ String colon (dest +:+ tail)))
    as [|w [|w' ws]] eqn:Hs; cbn in Hsplit; try discriminate Hsplit.
  injection Hsplit as -> ->.
  pose proof (first_segment_sep_free colon _ _ _ Hs) as Hsource.
  split; [done|].
  rewrite (split_app_sep colon source _ Hsource) in Hs.
  injection Hs as Hs.
  destruct Htail as [->|[md ->]].
  - rewrite append_empty_r in Hs. by eapply first_segment_sep_free.
  - destruct (Py.contains colon dest) eqn:Hd; [|done].
    pose proof (first_segment_sep_free colon _ _ _ Hs) as Hfree.
    congruence.
Qed.

(** ** The cache and the endpoints *)

Section CacheProperties.

Context {JSON : Type} (loads : string -> option JSON) (dumps : JSON -> string)
  (truthy : JSON -> bool).

Lemma redis_get_set (server : gmap string (string * nat)) (key : string)
    (j : JSON) (ttl : nat) :
  loads (dumps j) = Some j ->
  dumps j ≠ EmptyString ->
  redis_get loads key
    (redis_set dumps key (Collection j) ttl {| redis := Some server |})
  = Some (inl j).
Proof.
  intros Hround Hne. unfold redis_get, redis_set. cbn.
  rewrite lookup_insert_eq. destruct (dumps j); [done|]. by rewrite Hround.
Qed.

Lemma redis_get_set_ne (r : RedisClient) (key key' : string)
    (value : PyValue JSON) (ttl : nat) :
  key' ≠ key ->
  redis_get loads key' (redis_set dumps key value ttl r)
  = redis_get loads key' r.
Proof.
  intros Hne. unfold redis_get, redis_set.
  destruct (redis r) as [server|] eqn:Hr; cbn; [|by rewrite Hr].
  by rewrite lookup_insert_ne.
Qed.

Lemma redis_get_delete (r : RedisClient) (key : string) :
  redis_get loads key (redis_delete key r) = None
  ∧ ∀ key', key' ≠ key ->
            redis_get loads key' (redis_delete key r) = redis_get loads key' r.
Proof.
  unfold redis_get, redis_delete.
  destruct (redis r) as [server|] eqn:Hr; cbn.
  - split; [by rewrite lookup_delete_eq|].
    intros key' Hne. by rewrite lookup_delete_ne.
  - by rewrite Hr.
Qed.

(** X17. On a connected client, a dict that survives [dumps] and
    [loads] is read back from the key it was set under, the other keys
    read as before, and nothing is read from the key once deleted.  On
    a client that never connected every read gives [None], after a
    [set] too. *)
Theorem cache_set_get_delete (server : gmap string (string * nat))
    (key : string) (j : JSON) (ttl : nat) :
  loads (dumps j) = Some j ->
  dumps j ≠ EmptyString ->
  let r := redis_set dumps key (Collection j) ttl
             {| redis := Some server |} in
  redis_get loads key r = Some (inl j)
  ∧ (∀ key', key' ≠ key ->
             redis_get loads key' r
             = redis_get loads key' {| redis := Some server |})
  ∧ redis_get loads key (redis_delete key r) = None
  ∧ redis_get loads key
      (redis_set dumps key (Collection j) ttl {| redis := None |})
    = None.
Proof.
  intros Hround Hne r. split; [by apply redis_get_set|].
  split; [intros key' Hkey'; by apply redis_get_set_ne|].
  split; [apply redis_get_delete | done].
Qed.

(** X18. A string comes back from the cache as the string it was
    exactly when it is not empty and is not itself JSON text: an empty
    string reads as [None], and JSON text reads as the value it
    denotes. *)
Theorem cache_text_round_trip_iff (server : gmap string (string * nat))
    (key s : string) (ttl : nat) :
  redis_get loads key
    (redis_set dumps key (Text s) ttl {| redis := Some server |})
  = Some (inr s)
  ↔ s ≠ EmptyString ∧ loads s = None.
Proof.
  unfold redis_get, redis_set. cbn. rewrite lookup_insert_eq.
  destruct s as [|c s]; [by split; [|intros [? _]]|].
  destruct (loads (String c s)) as [j|]; split; try done.
  by intros [_ ?].
Qed.

(** X19. A summary cached by [GET /system] outlives an update and an
    attachment: neither endpoint deletes the key, so the next
    [GET /system] answers the cached summary whatever the service would
    compute now. *)
Theorem recreation_keeps_cached_summary
    (server : gmap string (string * nat)) (info : JSON)
    (service' : exn + JSON) (rt : Runtime) (id : string)
    (updates : ContainerUpdate) (volume_name mount_point mode : string) :
  loads (dumps info) = Some info ->
  dumps info ≠ EmptyString ->
  truthy info = true ->
  redis_get loads system_info_key {| redis := Some server |} = None ->
  let endpoint := get_system_info_endpoint loads dumps truthy in
  let first := endpoint (inr info) {| redis := Some server |} in
  let updated := update_container_endpoint id updates first.1 rt in
  let attached :=
    attach_volume_endpoint id volume_name mount_point mode updated.1.1 rt in
  first.2 = inr (inl info)
  ∧ (endpoint service' updated.1.1).2 = inr (inl info)
  ∧ (endpoint service' attached.1.1).2 = inr (inl info).
Proof.
  intros Hround Hne Htruthy Hmiss endpoint first updated attached.
  assert (Hfirst : first = (redis_set dumps system_info_key
                              (Collection info) 30
                              {| redis := Some server |}, inr (inl info))).
  { subst first endpoint. unfold get_system_info_endpoint.
    by rewrite Hmiss. }
  assert (Hhit : (endpoint service' first.1).2 = inr (inl info)).
  { rewrite Hfirst. subst endpoint. unfold get_system_info_endpoint. cbn [fst].
    rewrite (redis_get_set _ _ _ _ Hround Hne). cbn [cached_truthy].
    by rewrite Htruthy. }
  assert (Hupdated : updated.1.1 = first.1).
  { subst updated. unfold update_container_endpoint.
    by destruct (run (update_container id updates) rt) as [tr [e|p]]. }
  assert (Hattached : attached.1.1 = first.1).
  { subst attached. unfold attach_volume_endpoint. rewrite Hupdated.
    by destruct (run (attach_volume_to_container _ _ _ _) rt) as [tr [e|p]]. }
  split; [by rewrite Hfirst|]. by rewrite Hupdated, Hattached.
Qed.

(** X20. [POST /containers/{id}/start] deletes the cached summary once
    the service has returned, so that the next [GET /system] computes
    and answers a new one; when the service raises, the endpoint
    answers 500 with the message of the exception and leaves the cache
    as it was. *)
Theorem start_invalidates_cached_summary (r : RedisClient) (rt : Runtime)
    (id : string) (info' : JSON) :
  let started := start_container_endpoint id r rt in
  let endpoint := get_system_info_endpoint loads dumps truthy in
  match run (start_container id) rt with
  | (tr, inr result) =>
      started.2 = inr result
      ∧ redis_get loads system_info_key started.1.1 = None
      ∧ (endpoint (inr info') started.1.1).2 = inr (inl info')
  | (tr, inl e) =>
      started.2 = inl {| status_code := 500; detail := str_exn e |}
      ∧ started.1.1 = r
  end.
Proof.
  intros started endpoint. subst started. unfold start_container_endpoint.
  destruct (run (start_container id) rt) as [tr [e|result]]; [done|].
  cbn [fst snd]. split; [done|].
  pose proof (proj1 (redis_get_delete r system_info_key)) as Hgone.
  split; [done|]. subst endpoint. unfold get_system_info_endpoint.
  by rewrite Hgone.
Qed.

End CacheProperties.

Lemma cache_set_get_delete_witness :
  let server : gmap string (string * nat) := <["other" := ("x", 5)]> ∅ in
  let j := "{1}" in
  let r := redis_set braces_dumps "k" (Collection j) 30
             {| redis := Some server |} in
  redis_get braces_loads "k" r = Some (inl j)
  ∧ (∀ key', key' ≠ "k" ->
             redis_get braces_loads key' r
             = redis_get braces_loads key' {| redis := Some server |})
  ∧ redis_get braces_loads "k" (redis_delete "k" r) = None
  ∧ redis_get braces_loads "k"
      (redis_set braces_dumps "k" (Collection j) 30 {| redis := None |})
    = None.
Proof.
  intros server j.
  apply (cache_set_get_delete braces_loads braces_dumps server "k" j 30).
  - reflexivity.
  - discriminate.
Defined.

Lemma recreation_keeps_cached_summary_witness :
  let rt := runtime_with web_running (inr tt) (inr tt) (inr "new")
              (λ _, inr tt) in
  let endpoint :=
    get_system_info_endpoint braces_loads braces_dumps (λ _, true) in
  let first := endpoint (inr "{old}") {| redis := Some ∅ |} in
  let updated := update_container_endpoint "web-1" no_update first.1 rt in
  let attached :=
    attach_volume_endpoint "web-1" "cache" "/mnt" "rw" updated.1.1 rt in
  first.2 = inr (inl "{old}")
  ∧ (endpoint (inr "{new}") updated.1.1).2 = inr (inl "{old}")
  ∧ (endpoint (inr "{new}") attached.1.1).2 = inr (inl "{old}").
Proof.
  intros rt.
  apply (recreation_keeps_cached_summary braces_loads braces_dumps (λ _, true)
           ∅ "{old}" (inr "{new}") rt "web-1" no_update "cache" "/mnt" "rw").
  - reflexivity.
  - discriminate.
  - reflexivity.
  - reflexivity.
Defined.

(** ** The sign of the CPU share *)

Lemma cpu_percent_Q (a b : Z) (n : nat) :
  (this (cpu_percent a b n)
   == inject_Z a / inject_Z b * inject_Z (Z.of_nat n) * inject_Z 100)%Q.
Proof.
  unfold cpu_percent, Qcdiv, Qcmult, Qcinv, Q2Qc. cbn [this Qc_of_Z].
  repeat rewrite Qred_correct. reflexivity.
Qed.

Lemma inject_Z_pos (z : Z) : (0 < z)%Z -> (0 < inject_Z z)%Q.
Proof. intros H. unfold Qlt. cbn. lia. Qed.

Lemma cpu_percent_nonneg (a b : Z) (n : nat) :
  (0 < b)%Z -> (0 <= a)%Z -> (Q2Qc 0 <= cpu_percent a b n)%Qc.
Proof.
  intros Hb Ha. unfold Qcle. rewrite cpu_percent_Q. cbn [this Q2Qc].
  repeat apply Qmult_le_0_compat.
  - unfold Qle. cbn. lia.
  - apply Qinv_le_0_compat. unfold Qle. cbn. lia.
  - unfold Qle. cbn. lia.
  - done.
Qed.

Lemma cpu_percent_neg (a b : Z) (n : nat) :
  (0 < b)%Z -> (a < 0)%Z -> (0 < n)%nat -> (cpu_percent a b n < Q2Qc 0)%Qc.
Proof.
  intros Hb Ha Hn. unfold Qclt. rewrite cpu_percent_Q. cbn [this Q2Qc].
  assert (H : (0 < inject_Z (- a) / inject_Z b * inject_Z (Z.of_nat n)
                   * inject_Z 100)%Q).
  { repeat apply Qmult_lt_0_compat.
    - apply inject_Z_pos. lia.
    - apply Qinv_lt_0_compat. apply inject_Z_pos. lia.
    - apply inject_Z_pos. lia.
    - done. }
  assert (E : (inject_Z (- a) / inject_Z b * inject_Z (Z.of_nat n)
               * inject_Z 100
               == - (inject_Z a / inject_Z b * inject_Z (Z.of_nat n)
                     * inject_Z 100))%Q).
  { rewrite inject_Z_opp. unfold Qdiv. ring. }
  rewrite E in H. apply Qopp_lt_compat in H. rewrite Qopp_opp in H. exact H.
Qed.

(** X21. With a positive system delta the CPU share of a container has
    the sign of its CPU delta: it is not negative when the CPU counter
    did not go back, and it is negative when the counter went back, on
    a non-empty per-CPU list, so the reported total can be below 0. *)
Theorem cpu_share_sign (cur_total pre_total cur_system pre_system : Z)
    (percpu : option (list Z)) (mem : option (option Z)) :
  (0 < cur_system - pre_system)%Z ->
  let total :=
    total_cpu_percent
      (get_system_info
         [{| lc_status := "running";
             lc_stats := inr (sample_pair cur_total pre_total cur_system
                                pre_system percpu mem) |}]) in
  ((0 <= cur_total - pre_total)%Z -> (Q2Qc 0 <= total)%Qc)
  ∧ ((cur_total - pre_total < 0)%Z ->
     (0 < length (get_or percpu [1%Z]))%nat ->
     (total < Q2Qc 0)%Qc).
Proof.
  intros Hsys total.
  assert (Htotal : total = cpu_percent (cur_total - pre_total)
                             (cur_system - pre_system)
                             (length (get_or percpu [1%Z]))).
  { subst total. rewrite total_cpu_one_running.
    unfold add_usage, sample_pair, index.
    cbn [cpu_total_usage precpu_total_usage cpu_system_usage
         precpu_system_usage memory_stats].
    unfold cpu_count. cbn [percpu_usage].
    apply Z.ltb_lt in Hsys. rewrite Hsys.
    destruct mem; cbn [fst]; by rewrite Qcplus_0_l. }
  rewrite Htotal. split.
  - by apply cpu_percent_nonneg.
  - by apply cpu_percent_neg.
Qed.

Lemma cpu_share_sign_witness :
  let total :=
    total_cpu_percent
      (get_system_info
         [{| lc_status := "running";
             lc_stats := inr (sample_pair 900 1000 100500 100000 None None) |}])
  in
  ((0 <= 900 - 1000)%Z -> (Q2Qc 0 <= total)%Qc)
  ∧ ((900 - 1000 < 0)%Z ->
     (0 < length (get_or (None : option (list Z)) [1%Z]))%nat ->
     (total < Q2Qc 0)%Qc).
Proof.
  apply (cpu_share_sign 900 1000 100500 100000 None None). lia.
Defined.

(** ** The file name of an exported image *)

Lemma contains_append (c : ascii) (s t : string) :
  Py.contains c (s +:+ t) = Py.contains c s || Py.contains c t.
Proof.
  induction s as [|a s IH]; [done|].
  rewrite append_cons. simpl. by destruct (Ascii.eqb a c).
Qed.

Lemma contains_replace_char (old new : ascii) (s : string) :
  old ≠ new -> Py.contains old (replace_char old new s) = false.
Proof.
  intros Hne. induction s as [|a s IH]; [done|]. simpl.
  destruct (Ascii.eqb a old) eqn:Ha.
  - destruct (Ascii.eqb_spec new old); [congruence | done].
  - by rewrite Ha.
Qed.

(** X22. The file name offered for an exported image holds a ['/']
    exactly when the tag holds one: every ['/'] of the image name has
    become ['_']. *)
Theorem export_filename_slashes (image_name tag : string) :
  Py.contains "/" (export_filename image_name tag) = Py.contains "/" tag.
Proof.
  unfold export_filename.
  rewrite !contains_append, contains_replace_char by done.
  cbn. by rewrite orb_false_r.
Qed.

(** ** The compose file *)



(** X24. Without the compose label, or without a working directory, or
    when the container cannot be fetched, [update_compose_file] fails
    with a plain [Exception] having written no file and run no command,
    and [get_compose_file] answers [None]. *)
Theorem update_compose_refused_untouched (id content : string)
    (env : ComposeEnv) (st : ComposeState) :
  match ce_labels env id with
  | inl _ => True
  | inr labels =>
      labels !! compose_project = None
      ∨ get_or (labels !! compose_working_dir) EmptyString = EmptyString
  end ->
  let r := update_compose_file id content env st in
  r.1 = st
  ∧ (∃ msg, r.2 = inl (PyException msg))
  ∧ get_compose_file id env st = None.
Proof.
  intros Hrefused r. subst r.
  unfold update_compose_file, get_compose_file.
  destruct (ce_labels env id) as [e|labels].
  - split; [done|]. split; [|done]. destruct e; by eexists.
  - destruct (labels !! compose_project) as [project|] eqn:Hproject.
    + destruct Hrefused as [?|Hdir]; [done|]. rewrite Hdir.
      split; [done|]. split; [by eexists | done].
    + split; [done|]. split; [by eexists | done].
Qed.

Lemma update_compose_refused_untouched_witness :
  let env := compose_env ∅ 0 in
  let st := {| cs_files := ∅; cs_commands := [] |} in
  let r := update_compose_file "web-1" "new" env st in
  r.1 = st
  ∧ (∃ msg, r.2 = inl (PyException msg))
  ∧ get_compose_file "web-1" env st = None.
Proof.
  intros env st.
  apply (update_compose_refused_untouched "web-1" "new" env st).
  simpl. left. reflexivity.
Defined.
